(** * AeroSandbox point-mass dynamics: the common base class

    A shallow embedding of [_DynamicsPointMassBaseClass]
    (aerosandbox/dynamics/point_mass/common_point_mass.py) and the
    verification of its state container, instance indexer, trajectory
    constraint binder and derived accessors.

    Python objects are embedded by their attribute dictionary, Python
    dictionaries as insertion-ordered association lists, and exceptions as
    an error result.  The values are those of Python and NumPy: [None],
    Python numbers, NumPy scalars, one-dimensional NumPy arrays, strings and
    mass-properties objects; the arithmetic of the numbers is a type class,
    binary64 in the concrete instance.  CasADi expressions are not values
    of this model. *)

From Stdlib Require Import String Ascii ZArith Bool Arith Lia Floats List.
Import ListNotations.

Set Implicit Arguments.
Set Warnings "-inexact-float".

Local Open Scope string_scope.
Local Open Scope list_scope.

(* ================================================================== *)
(** * Exceptions and the error monad *)

(** The exception classes this file raises or catches.  [KeyError] and
    [IndexError] are lookup errors: neither is a subclass of [ValueError].
    Every class below is a subclass of [Exception]. *)
Inductive exn_class : Type :=
| AttributeError
| IndexError
| KeyError
| TypeError
| ValueError
| OtherException
| RecursionError.

(** A raised exception: its class and [str(e)]. For a [KeyError] the
    message is the missing key. *)
Record exn : Type := Raise { exn_cls : exn_class; exn_msg : string }.

Inductive result (A : Type) : Type :=
| Ok (a : A)
| Err (e : exn).

Arguments Ok {A} a.
Arguments Err {A} e.

Definition bind {A B : Type} (m : result A) (k : A -> result B) : result B :=
  match m with
  | Ok a => k a
  | Err e => Err e
  end.

Declare Scope py_scope.
Delimit Scope py_scope with py.
Notation "x <- m ;; k" := (bind m (fun x => k))
  (at level 100, m at next level, right associativity) : py_scope.
Notation "' pat <- m ;; k" := (bind m (fun x => match x with pat => k end))
  (at level 100, pat pattern, m at next level, right associativity) : py_scope.
Local Open Scope py_scope.

(** [raises c r]: the computation [r] ends in an exception of class [c]. *)
Definition raises {A : Type} (c : exn_class) (r : result A) : Prop :=
  match r with
  | Ok _ => False
  | Err e => exn_cls e = c
  end.

(** The line feed of a Python ["\n"]. *)
Definition LF : string := String (ascii_of_nat 10) EmptyString.

(* ================================================================== *)
(** * Python dictionaries

    A [dict] keeps its keys in insertion order; assigning to a key that is
    already present keeps its position, assigning to a new key appends. *)

Section PyDict.
Context {A : Type}.

Definition dict : Type := list (string * A).

Fixpoint dict_get (d : dict) (k : string) : option A :=
  match d with
  | [] => None
  | (k', v) :: d' => if String.eqb k k' then Some v else dict_get d' k
  end.

Fixpoint dict_set (d : dict) (k : string) (v : A) : dict :=
  match d with
  | [] => [(k, v)]
  | (k', v') :: d' =>
      if String.eqb k k' then (k', v) :: d' else (k', v') :: dict_set d' k v
  end.

Definition dict_keys (d : dict) : list string := map fst d.
Definition dict_values (d : dict) : list A := map snd d.
Definition dict_items (d : dict) : list (string * A) := d.

(** [{k: v for k, v in items}]: later pairs win, first occurrence keeps
    the position. *)
Definition dict_of_items (items : list (string * A)) : dict :=
  fold_left (fun d kv => dict_set d (fst kv) (snd kv)) items [].

(** [d[k]]: a missing key raises [KeyError]. *)
Definition dict_getitem (d : dict) (k : string) : result A :=
  match dict_get d k with
  | Some v => Ok v
  | None => Err (Raise KeyError k)
  end.

End PyDict.

Arguments dict A : clear implicits.

Definition mem (k : string) (l : list string) : bool :=
  existsb (String.eqb k) l.

Fixpoint nodupb (l : list string) : bool :=
  match l with
  | [] => true
  | k :: l' => negb (mem k l') && nodupb l'
  end.

(* ================================================================== *)
(** * Scalars and values *)

(** The scalar backend: the numbers of a state, with the literals and the
    operators this class applies to them. *)
Class Scalar (num : Type) : Type := {
  num_zero : num;                 (* the literal 0 *)
  num_g : num;                    (* the literal 9.81 *)
  num_add : num -> num -> num;
  num_mul : num -> num -> num;
  num_div : num -> num -> num;
  num_neg : num -> num;
}.

Section Values.
Context {num : Type} {Sc : Scalar num}.

(** What an attribute of a dynamics instance holds: [None]; a Python
    number (a float; an int such as the default 0 is taken as the float of
    the same value); a one-dimensional NumPy array; a [MassProperties]
    object; a NumPy scalar, which is what an item of an array is; or a
    string.  [MassProperties] is declared outside this file; the one field
    read here is [mass], and the object is taken to define no
    [__getitem__]. *)
Inductive value : Type :=
| VNone
| VNum (x : num)
| VArr (xs : list num)
| VMassProps (mass : value)
| VNpNum (x : num)
| VStr (s : string).

Definition is_None (v : value) : bool :=
  match v with VNone => true | _ => false end.

Definition is_array (v : value) : bool :=
  match v with VArr _ => true | _ => false end.

(** The entry of the dict [sd] under [name] is [None]. *)
Definition none_in (sd : dict value) (name : string) : bool :=
  match dict_get sd name with
  | Some VNone => true
  | _ => false
  end.

(** [mp.mass] *)
Definition mass_of (mp : value) : result value :=
  match mp with
  | VMassProps m => Ok m
  | _ => Err (Raise AttributeError "mass")
  end.

(** Unary minus, elementwise on arrays. *)
Definition py_neg (v : value) : result value :=
  match v with
  | VNum x => Ok (VNum (num_neg x))
  | VNpNum x => Ok (VNpNum (num_neg x))
  | VArr xs => Ok (VArr (map num_neg xs))
  | _ => Err (Raise TypeError "bad operand type for unary -")
  end.

(** [a * b] with NumPy broadcasting between scalars and 1-D arrays.  Two
    Python numbers give a Python number; a NumPy scalar with a number or
    with another NumPy scalar gives a NumPy scalar. *)
Definition py_binop (op : num -> num -> num) (a b : value) : result value :=
  match a, b with
  | VNum x, VNum y => Ok (VNum (op x y))
  | VNum x, VNpNum y | VNpNum x, VNum y | VNpNum x, VNpNum y =>
      Ok (VNpNum (op x y))
  | VNum x, VArr ys | VNpNum x, VArr ys => Ok (VArr (map (op x) ys))
  | VArr xs, VNum y | VArr xs, VNpNum y =>
      Ok (VArr (map (fun x => op x y) xs))
  | VArr xs, VArr ys =>
      if Nat.eqb (length xs) (length ys)
      then Ok (VArr (map (fun p => op (fst p) (snd p)) (combine xs ys)))
      else match xs, ys with
           | [x], _ => Ok (VArr (map (op x) ys))
           | _, [y] => Ok (VArr (map (fun x => op x y) xs))
           | _, _ => Err (Raise ValueError "operands could not be broadcast together")
           end
  | _, _ => Err (Raise TypeError "unsupported operand type(s)")
  end.

Definition py_mul : value -> value -> result value := py_binop num_mul.
Definition py_div : value -> value -> result value := py_binop num_div.

(** [a + b]: two strings are concatenated. *)
Definition py_add (a b : value) : result value :=
  match a, b with
  | VStr s, VStr t => Ok (VStr (s ++ t))
  | _, _ => py_binop num_add a b
  end.

(** Modelled from the spec: [aerosandbox.numpy.length] is not under src/.
    A scalar broadcasts and counts as length 1 ([len] raises [TypeError] on
    it); a vector has the number of its elements, and so has whatever else
    [len] accepts. *)
Definition np_length (v : value) : nat :=
  match v with
  | VArr xs => length xs
  | VStr s => String.length s
  | _ => 1
  end.

(** An entry is vectorized when [np.length] does not see it as a scalar:
    the first branch of the loop of [__len__] passes over the entries of
    length 1. *)
Definition vectorized (v : value) : bool := negb (Nat.eqb (np_length v) 1).

(** [a[index]] for an integer index.  Arrays and strings accept
    [-len <= index < len], negative indices counting from the end, and
    raise [IndexError] beyond; the item of an array is a NumPy scalar.  A
    NumPy scalar has [__getitem__] but no integer index is valid for it:
    [IndexError].  [None], a Python number and a mass-properties object are
    not subscriptable: [TypeError]. *)
Definition subscript (a : value) (index : Z) : result value :=
  match a with
  | VArr xs =>
      let n := Z.of_nat (length xs) in
      let i := if (index <? 0)%Z then (index + n)%Z else index in
      if ((0 <=? i)%Z && (i <? n)%Z)%bool
      then match nth_error xs (Z.to_nat i) with
           | Some x => Ok (VNpNum x)
           | None => Err (Raise IndexError "index out of bounds")
           end
      else Err (Raise IndexError "index out of bounds")
  | VStr s =>
      let n := Z.of_nat (String.length s) in
      let i := if (index <? 0)%Z then (index + n)%Z else index in
      if ((0 <=? i)%Z && (i <? n)%Z)%bool
      then match String.get (Z.to_nat i) s with
           | Some c => Ok (VStr (String c EmptyString))
           | None => Err (Raise IndexError "string index out of range")
           end
      else Err (Raise IndexError "string index out of range")
  | VNpNum _ => Err (Raise IndexError "invalid index to scalar variable.")
  | _ => Err (Raise TypeError "object is not subscriptable")
  end.

(** What [get_item_of_attribute] hands back as it is: the objects Python
    cannot subscript. *)
Definition not_subscriptable (a : value) : bool :=
  match a with
  | VNone | VNum _ | VMassProps _ => true
  | _ => false
  end.

End Values.

Arguments value num : clear implicits.

(* ================================================================== *)
(** * The dynamics class *)

Section Dynamics.
Context {num : Type} {Sc : Scalar num}.

(** A dynamics instance is its attribute dictionary, [self.__dict__]. *)
Definition instance : Type := dict (value num).

(** [getattr(self, k)] on a plain attribute. *)
Definition getattr (self : instance) (k : string) : result (value num) :=
  match dict_get self k with
  | Some v => Ok v
  | None => Err (Raise AttributeError k)
  end.

(** The read-only properties the base class declares (lines 27, 149, 359
    and 479-498): none has a setter. *)
Definition base_properties : list string :=
  ["state"; "control_variables"; "op_point"; "altitude";
   "translational_kinetic_energy"; "kinetic_energy"; "potential_energy"].

(** Whether the assignment [self.k = v] is refused, and with which
    exception.  A read-only property of the class raises
    [AttributeError].  Three names are guarded by the interpreter on every
    object: [__weakref__] is not writable ([AttributeError]), and
    [__class__] and [__dict__] take a class and a dict only, which no value
    of this model is ([TypeError]). *)
Definition refused (read_only : list string) (k : string) : option exn_class :=
  if mem k read_only then Some AttributeError
  else if String.eqb k "__weakref__" then Some AttributeError
  else if mem k ["__class__"; "__dict__"] then Some TypeError
  else None.

(** [setattr(self, k, v)]: a name that is not refused is stored in
    [__dict__]. *)
Definition setattr (read_only : list string) (self : instance) (k : string)
  (v : value num) : result instance :=
  match refused read_only k with
  | Some c => Err (Raise c k)
  | None => Ok (dict_set self k v)
  end.

(** A sequence of assignments [self.k = v], in order. *)
Definition assign_all (read_only : list string)
  (items : list (string * value num)) (self : instance) : result instance :=
  fold_left (fun acc kv => self <- acc ;; setattr read_only self (fst kv) (snd kv))
    items (Ok self).

(** [[(k, getattr(self, k)) for k in names]], left to right. *)
Fixpoint read_attrs (self : instance) (names : list string)
  : result (list (string * value num)) :=
  match names with
  | [] => Ok []
  | k :: names' =>
      v <- getattr self k ;;
      rest <- read_attrs self names' ;;
      Ok ((k, v) :: rest)
  end.

(** Modelled from the spec: the concrete variants (subclasses) of the
    abstract base class are not under src/.  A variant is described by what
    the base class's docstrings require of it: the constructor takes
    [mass_props] and then the state variables and indirect control
    variables ([init_params], each with its default if it has one) and
    stores each under its own name; every control variable
    ([control_names]) is set to 0; [state] and [control_variables] are the
    dict literals over [state_names] and [control_names].  The abstract
    methods [state_derivatives] and [add_force] are the variant's own; an
    argument of [add_force] left out by the caller is [None] here and takes
    the variant's default.  [properties] names the read-only properties
    the variant declares besides those of the base class. *)
Record Variant : Type := {
  init_params : list (string * option (value num));
  state_names : list string;
  control_names : list string;
  properties : list string;
  state_derivatives : instance -> result (dict (value num));
  add_force : instance -> option (value num) -> option (value num)
              -> option (value num) -> option string -> result instance;
}.

(** [MassProperties()], the default object the constructor installs when
    it is given no mass properties (declared outside this file). *)
Variable MassProperties_new : value num.

Variable V : Variant.

(** The names that cannot be assigned on an instance of the variant. *)
Definition read_only : list string := base_properties ++ properties V.

(** [list(inspect.signature(cls.__init__).parameters.keys())[1:]] *)
Definition init_args : list string :=
  "mass_props" :: map fst (init_params V).

(** Binding keyword arguments to the constructor's parameters: a missing
    argument takes the default, and raises [TypeError] if there is none. *)
Fixpoint bind_params (params : list (string * option (value num)))
  (kwargs : dict (value num)) : result (list (string * value num)) :=
  match params with
  | [] => Ok []
  | (k, dflt) :: params' =>
      v <- match dict_get kwargs k, dflt with
           | Some v, _ => Ok v
           | None, Some v => Ok v
           | None, None => Err (Raise TypeError k)
           end ;;
      rest <- bind_params params' kwargs ;;
      Ok ((k, v) :: rest)
  end.

(** The constructor call [cls( **kwargs )]: lines 14-25.  An unexpected keyword raises
    [TypeError]; then
      self.mass_props = MassProperties() if mass_props is None else mass_props
      self.<param> = <param>      for each constructor parameter
      self.<control_var> = 0      for each control variable *)
Definition __init__ (kwargs : dict (value num)) : result instance :=
  if forallb (fun k => mem k init_args) (dict_keys kwargs) then
    let mass_props :=
      match dict_get kwargs "mass_props" with
      | Some VNone | None => MassProperties_new
      | Some mp => mp
      end in
    args <- bind_params (init_params V) kwargs ;;
    assign_all read_only
      (("mass_props", mass_props) :: args
         ++ map (fun c => (c, VNum num_zero)) (control_names V))
      []
  else Err (Raise TypeError "__init__() got an unexpected keyword argument").

(** The [state] property: [{"x_e": self.x_e, ...}] over the state names. *)
Definition state (self : instance) : result (dict (value num)) :=
  items <- read_attrs self (state_names V) ;;
  Ok (dict_of_items items).

(** The [control_variables] property. *)
Definition control_variables (self : instance) : result (dict (value num)) :=
  items <- read_attrs self (control_names V) ;;
  Ok (dict_of_items items).

(** Lines 108-122. *)
Definition unpack_state (self : instance)
  (dict_like_state : option (dict (value num))) : result (list (value num)) :=
  dict_like_state <- match dict_like_state with
                     | None => state self
                     | Some d => Ok d
                     end ;;
  Ok (dict_values dict_like_state).

Definition pack_state_error : exn :=
  Raise ValueError
    "There are a differing number of elements in the `state` variable and the `array_like` you're trying to pack!".

(** Lines 124-147. *)
Definition pack_state (self : instance)
  (array_like_state : option (list (value num))) : result (dict (value num)) :=
  match array_like_state with
  | None => state self
  | Some array_like_state =>
      st <- state self ;;
      if negb (Nat.eqb (length (dict_keys st)) (length array_like_state))
      then Err pack_state_error
      else
        st' <- state self ;;
        Ok (dict_of_items (combine (dict_keys st') array_like_state))
  end.

(** What [_set_state] and [get_new_instance_with_state] accept as a new
    state: a dict, or a positional sequence (list, tuple, array). *)
Inductive state_like : Type :=
| SDict (d : dict (value num))
| SSeq (xs : list (value num)).

(** The loop of lines 101-102 over the keys that are left: [self] as the
    assignments made so far leave it, and the exception that ended the
    loop, if one did. *)
Fixpoint set_state_loop (self : instance) (new_state : dict (value num))
  (keys : list string) : instance * option exn :=
  match keys with
  | [] => (self, None)
  | key :: keys' =>
      match (v <- dict_getitem new_state key ;; setattr read_only self key v) with
      | Ok self' => set_state_loop self' new_state keys'
      | Err e => (self, Some e)
      end
  end.

(** The [try] of lines 100-102.  [None] has become the empty dict; a
    sequence has no [keys]. *)
Definition set_state_try (self : instance) (new_state : option state_like)
  : instance * option exn :=
  match new_state with
  | None => (self, None)
  | Some (SDict d) => set_state_loop self d (dict_keys d)
  | Some (SSeq _) => (self, Some (Raise AttributeError "keys"))
  end.

(** What [pack_state] gets when it is handed [new_state] at line 106: a
    sequence as it is, and of a dict what iterating over it gives, its
    keys. *)
Definition iterated (new_state : option state_like) : list (value num) :=
  match new_state with
  | None => []
  | Some (SDict d) => map (fun k => VStr k) (dict_keys d)
  | Some (SSeq xs) => xs
  end.

(** Lines 79-106.  An [AttributeError] raised in the [try], by the missing
    [keys] of a sequence or by an assignment to a read-only property, is
    caught with [self] as the assignments made so far leave it;
    [new_state] is packed and the call repeated on the packed dict.  That
    dict has the keys of the state, and so has every dict packed from it:
    if an assignment of the repeated call raises [AttributeError], it does
    so again in every deeper call, until the interpreter ends the
    recursion.  Returns the mutated [self]. *)
Definition _set_state (self : instance) (new_state : option state_like)
  : result instance :=
  match set_state_try self new_state with
  | (self, None) => Ok self
  | (self, Some e) =>
      match exn_cls e with
      | AttributeError =>
          packed <- pack_state self (Some (iterated new_state)) ;;
          match set_state_loop self packed (dict_keys packed) with
          | (self, None) => Ok self
          | (self, Some e') =>
              match exn_cls e' with
              | AttributeError =>
                  _ <- pack_state self (Some (iterated (Some (SDict packed)))) ;;
                  Err (Raise RecursionError "maximum recursion depth exceeded")
              | _ => Err e'
              end
          end
      | _ => Err e
      end
  end.

(** Lines 45-77. *)
Definition get_new_instance_with_state (self : instance)
  (new_state : option state_like) : result instance :=
  kwargs <- read_attrs self init_args ;;
  new_dyn <- __init__ (dict_of_items kwargs) ;;
  _set_state new_dyn new_state.

Definition getitem_error : exn :=
  Raise IndexError
    "A state variable could not be indexed, since the index is out of range!".

(** Lines 200-206. *)
Definition get_item_of_attribute (index : Z) (a : value num)
  : result (value num) :=
  match subscript a index with
  | Ok x => Ok x
  | Err e =>
      match exn_cls e with
      | TypeError => Ok a
      | IndexError => Err getitem_error
      | _ => Err e
      end
  end.

(** One turn of the loop of lines 210-211, on the item [(k, v)]. *)
Definition getitem_step (index : Z) (acc : result instance)
  (kv : string * value num) : result instance :=
  new_instance <- acc ;;
  x <- get_item_of_attribute index (snd kv) ;;
  setattr read_only new_instance (fst kv) x.

(** Lines 187-213: each attribute of the re-instantiated object is replaced
    by its item, in the order of its [__dict__]. *)
Definition __getitem__ (self : instance) (index : Z) : result instance :=
  new_instance <- get_new_instance_with_state self None ;;
  fold_left (getitem_step index) (dict_items new_instance) (Ok new_instance).

Definition len_error : exn :=
  Raise ValueError
    "State variables are appear vectorized, but of different lengths!".

(** The loop of [__len__] from a running [length]. *)
Fixpoint len_loop (length : nat) (vs : list (value num)) : result nat :=
  match vs with
  | [] => Ok length
  | v :: vs' =>
      if Nat.eqb (np_length v) 1 then len_loop length vs'
      else if Nat.eqb length 1 then len_loop (np_length v) vs'
      else if Nat.eqb length (np_length v) then len_loop length vs'
      else Err len_error
  end.

(** Lines 215-226. *)
Definition __len__ (self : instance) : result nat :=
  st <- state self ;;
  len_loop 1 (dict_values st).

(** Lines 351-357.  [add_force] is called with [Fz] and [axes] only;
    the method returns [None] and leaves the accumulated force in [self]. *)
Definition add_gravity_force (self : instance) (g : option (value num))
  : result (value num * instance) :=
  let g := match g with Some g => g | None => VNum num_g end in
  mass_props <- getattr self "mass_props" ;;
  mass <- mass_of mass_props ;;
  Fz <- py_mul mass g ;;
  self' <- add_force V self None None (Some Fz) (Some "earth") ;;
  Ok (VNone, self').

(** Lines 479-481. *)
Definition altitude (self : instance) : result (value num) :=
  z_e <- getattr self "z_e" ;;
  py_neg z_e.

(** Lines 491-498; a property cannot be given [g], which is always 9.81. *)
Definition potential_energy (self : instance) : result (value num) :=
  let g := VNum num_g in
  mass_props <- getattr self "mass_props" ;;
  mass <- mass_of mass_props ;;
  mg <- py_mul mass g ;;
  h <- altitude self ;;
  py_mul mg h.

(* ------------------------------------------------------------------ *)
(** ** The trajectory constraint binder *)

(** The optimization context is an external collaborator: all this class
    does with it is call [opti.constrain_derivative(derivative, variable,
    with_respect_to, method)], which changes the context or raises. *)
Context {Opti : Type}.
Variable constrain_derivative :
  Opti -> value num -> value num -> value num -> string -> result Opti.

(** The argument [which]: the string "all" or a list of names. *)
Inductive which_vars : Type :=
| WAll
| WNames (names : list string).

(** The handlers of lines 286-289. *)
Definition constrain_handler (state_var_name : string) (e : exn) : exn :=
  match exn_cls e with
  | KeyError =>
      Raise ValueError
        ("This dynamics instance does not have a state named '"
           ++ state_var_name ++ "'!")
  | _ =>
      Raise ValueError
        ("Error while constraining state variable '" ++ state_var_name
           ++ "': " ++ LF ++ exn_msg e)
  end.

(** The loop of lines 272-289 over the selected names.  The lookup of
    line 275 stands before the [try]. *)
Fixpoint constrain_loop (self : instance) (sd : dict (value num))
  (time : value num) (method : string) (opti : Opti) (which : list string)
  : result Opti :=
  match which with
  | [] => Ok opti
  | state_var_name :: rest =>
      d <- dict_getitem sd state_var_name ;;
      if is_None d then constrain_loop self sd time method opti rest
      else
        match (st <- state self ;;
               variable <- dict_getitem st state_var_name ;;
               constrain_derivative opti d variable time method) with
        | Ok opti' => constrain_loop self sd time method opti' rest
        | Err e => Err (constrain_handler state_var_name e)
        end
  end.

(** Lines 267-289. *)
Definition constrain_derivatives (self : instance) (opti : Opti)
  (time : value num) (method : string) (which : which_vars) : result Opti :=
  which <- match which with
           | WAll => st <- state self ;; Ok (dict_keys st)
           | WNames names => Ok names
           end ;;
  sd <- state_derivatives V self ;;
  constrain_loop self sd time method opti which.

(* ------------------------------------------------------------------ *)
(** ** Well-formed variants and complete instances *)

(** The names of a variant do not collide: constructor parameters and
    control variables are pairwise distinct, every state variable is a
    constructor parameter other than [mass_props], and none of the names
    the constructor assigns is refused, as a read-only property is (the
    constructor would raise). *)
Definition wf_variant : bool :=
  nodupb (init_args ++ control_names V)
  && nodupb (state_names V)
  && forallb (fun k => mem k (map fst (init_params V))) (state_names V)
  && forallb (fun k => match refused read_only k with None => true | Some _ => false end)
       (init_args ++ control_names V).

(** An instance holds every attribute its constructor stores, and its mass
    properties are an object (the constructor never leaves [None] there). *)
Definition complete_instance (self : instance) : bool :=
  forallb (fun k => match dict_get self k with Some _ => true | None => false end)
    (init_args ++ control_names V)
  && match dict_get self "mass_props" with
     | Some VNone | None => false
     | Some _ => true
     end.

(* ------------------------------------------------------------------ *)
(** ** Vocabulary of the statements *)

(** A new state that names state variables only: no state at all, a dict
    over state-variable names, or one value per state variable. *)
Definition state_like_ok (new_state : option state_like) : bool :=
  match new_state with
  | None => true
  | Some (SDict d) => forallb (fun k => mem k (state_names V)) (dict_keys d)
  | Some (SSeq xs) => Nat.eqb (length xs) (length (state_names V))
  end.

(** Every array among the attributes the constructor takes has [n]
    elements. *)
Definition arrays_of_length (self : instance) (n : nat) : bool :=
  forallb (fun k => match dict_get self k with
                    | Some (VArr xs) => Nat.eqb (length xs) n
                    | _ => true
                    end) init_args.

(** Every attribute the constructor takes is [None], a Python number, a
    mass-properties object or an array: none is a NumPy scalar or a
    string. *)
Definition plain_or_array (self : instance) : bool :=
  forallb (fun k => match dict_get self k with
                    | Some (VNpNum _) | Some (VStr _) => false
                    | _ => true
                    end) init_args.

(** No attribute the constructor takes can be subscripted: each is
    [None], a Python number or a mass-properties object. *)
Definition all_not_subscriptable (self : instance) : bool :=
  forallb (fun k => match dict_get self k with
                    | Some v => not_subscriptable v
                    | None => true
                    end) init_args.

(** Some attribute the constructor takes is a NumPy scalar. *)
Definition holds_numpy_scalar (self : instance) : bool :=
  existsb (fun k => match dict_get self k with
                    | Some (VNpNum _) => true
                    | _ => false
                    end) init_args.

(** Every key of the dict can be assigned: none is a read-only property
    or a name the interpreter guards. *)
Definition assignable (d : dict (value num)) : bool :=
  forallb (fun k => match refused read_only k with None => true | Some _ => false end)
    (dict_keys d).

(** The exception of the first key, in the order of the dict, whose
    assignment is refused. *)
Fixpoint first_refusal (keys : list string) : option exn_class :=
  match keys with
  | [] => None
  | k :: keys' =>
      match refused read_only k with
      | Some c => Some c
      | None => first_refusal keys'
      end
  end.

(** The item [index] of an array, a NumPy scalar; anything else as it
    is. *)
Definition item_or_self (index : Z) (v : value num) : value num :=
  match v with
  | VArr xs => VNpNum (nth (Z.to_nat index) xs num_zero)
  | _ => v
  end.

(** The attributes of a fresh instance built from those of [self]: the
    constructor's arguments as [self] has them, the control variables 0. *)
Definition reinstantiated (self : instance) : instance :=
  map (fun k => (k, match dict_get self k with Some v => v | None => VNone end))
    init_args
  ++ map (fun c => (c, VNum num_zero)) (control_names V).


End Dynamics.

Arguments Variant num : clear implicits.
Arguments which_vars : clear implicits.
Arguments init_args : simpl never.

(* ================================================================== *)
(** * A concrete backend and a concrete variant *)

(** Python floats: IEEE 754 binary64. *)
#[export] Instance float_scalar : Scalar float := {|
  num_zero := 0%float;
  num_g := 9.81%float;
  num_add := PrimFloat.add;
  num_mul := PrimFloat.mul;
  num_div := PrimFloat.div;
  num_neg := PrimFloat.opp;
|}.

Definition or_zero (v : option (value float)) : value float :=
  match v with Some v => v | None => VNum 0%float end.

(** Modelled from the spec: a point mass in the vertical plane, one of the
    variants that are not under src/.  State [x_e, z_e, u_e, w_e] (earth
    frame, z down), the indirect control variable [alpha], and the
    accumulated earth-frame force [Fx_e, Fz_e].  Forces are accepted in
    earth axes only (the frame conversion of the other axes is not part of
    this example). *)
Definition PointMass2D_properties : list string := ["speed"; "gamma"; "beta"].

Definition PointMass2D_add_force (self : instance)
  (Fx Fy Fz : option (value float)) (axes : option string)
  : result (@instance float) :=
  match axes with
  | Some "earth" =>
      Fx_e <- getattr self "Fx_e" ;;
      Fx_e' <- py_add Fx_e (or_zero Fx) ;;
      self <- setattr (base_properties ++ PointMass2D_properties) self "Fx_e" Fx_e' ;;
      Fz_e <- getattr self "Fz_e" ;;
      Fz_e' <- py_add Fz_e (or_zero Fz) ;;
      setattr (base_properties ++ PointMass2D_properties) self "Fz_e" Fz_e'
  | _ => Err (Raise ValueError "Bad value of `axes`!")
  end.

Definition PointMass2D_state_derivatives (self : @instance float)
  : result (dict (value float)) :=
  u_e <- getattr self "u_e" ;;
  w_e <- getattr self "w_e" ;;
  mass_props <- getattr self "mass_props" ;;
  mass <- mass_of mass_props ;;
  Fx_e <- getattr self "Fx_e" ;;
  du <- py_div Fx_e mass ;;
  Fz_e <- getattr self "Fz_e" ;;
  dw <- py_div Fz_e mass ;;
  Ok (dict_of_items [("x_e", u_e); ("z_e", w_e); ("u_e", du); ("w_e", dw)]).

Definition PointMass2D : Variant float := {|
  init_params := [("x_e", Some (VNum 0%float)); ("z_e", Some (VNum 0%float));
                  ("u_e", Some (VNum 0%float)); ("w_e", Some (VNum 0%float));
                  ("alpha", Some (VNum 0%float))];
  state_names := ["x_e"; "z_e"; "u_e"; "w_e"];
  control_names := ["Fx_e"; "Fz_e"];
  properties := PointMass2D_properties;
  state_derivatives := PointMass2D_state_derivatives;
  add_force := PointMass2D_add_force;
|}.

(** The same point mass gliding at a prescribed sink rate: the vertical
    speed has no enforced dynamics, so its derivative is [None]. *)
Definition PointMass2D_glide : Variant float := {|
  init_params := init_params PointMass2D;
  state_names := state_names PointMass2D;
  control_names := control_names PointMass2D;
  properties := properties PointMass2D;
  state_derivatives := fun self =>
    sd <- PointMass2D_state_derivatives self ;;
    Ok (dict_set sd "w_e" VNone);
  add_force := PointMass2D_add_force;
|}.

Definition unit_mass : value float := VMassProps (VNum 1%float).

(** [PointMass2D(mass_props=MassProperties(mass=2), x_e=0, z_e=-100,
    u_e=50, w_e=0)] *)
Definition glider : result (@instance float) :=
  __init__ unit_mass PointMass2D
    [("mass_props", VMassProps (VNum 2%float));
     ("x_e", VNum 0%float); ("z_e", VNum (-100)%float);
     ("u_e", VNum 50%float); ("w_e", VNum 0%float)].

(** A trajectory of three time samples, after a vectorized force was
    added. *)
Definition trajectory : @instance float :=
  [("mass_props", VMassProps (VNum 2%float));
   ("x_e", VArr [0; 10; 20]%float); ("z_e", VNum (-100)%float);
   ("u_e", VArr [50; 51; 52]%float); ("w_e", VNum 0%float);
   ("alpha", VNum 0%float);
   ("Fx_e", VArr [5; 6; 7]%float); ("Fz_e", VNum 19.62%float)].

(** A steady state: every attribute is a scalar. *)
Definition steady : @instance float :=
  [("mass_props", VMassProps (VNum 2%float));
   ("x_e", VNum 0%float); ("z_e", VNum (-100)%float);
   ("u_e", VNum 50%float); ("w_e", VNum 0%float);
   ("alpha", VNum 0%float);
   ("Fx_e", VNum 0%float); ("Fz_e", VNum 0%float)].

(** A malformed trajectory: two vectorized state variables of different
    lengths. *)
Definition ragged : @instance float :=
  [("mass_props", VMassProps (VNum 2%float));
   ("x_e", VArr [0; 10; 20]%float); ("z_e", VNum (-100)%float);
   ("u_e", VArr [50; 51]%float); ("w_e", VNum 0%float);
   ("alpha", VNum 0%float);
   ("Fx_e", VNum 0%float); ("Fz_e", VNum 0%float)].

(** Three time samples of the state, and the angle of attack (an indirect
    control variable) given on the two intervals between them. *)
Definition pitching : @instance float :=
  [("mass_props", VMassProps (VNum 2%float));
   ("x_e", VArr [0; 10; 20]%float); ("z_e", VNum (-100)%float);
   ("u_e", VArr [50; 51; 52]%float); ("w_e", VNum 0%float);
   ("alpha", VArr [0.1; 0.2]%float);
   ("Fx_e", VNum 0%float); ("Fz_e", VNum 0%float)].

(** An optimization context that records the constraints it is given. *)
Definition LogOpti : Type :=
  list (value float * value float * value float * string).

Definition log_constrain_derivative (opti : LogOpti)
  (derivative variable with_respect_to : value float) (method : string)
  : result LogOpti :=
  Ok (opti ++ [(derivative, variable, with_respect_to, method)]).

(** An optimization context of any backend that records, in order, the
    arguments of each call of [constrain_derivative] and never raises. *)
Definition record_constraint {num : Type}
  (opti : list (value num * value num * value num * string))
  (derivative variable with_respect_to : value num) (method : string)
  : result (list (value num * value num * value num * string)) :=
  Ok (opti ++ [(derivative, variable, with_respect_to, method)]).

(** An optimization context that rejects every constraint with [e]. *)
Definition reject_constraint {num : Type} (e : exn) (opti : unit)
  (derivative variable with_respect_to : value num) (method : string)
  : result unit :=
  Err e.

(** A point mass that lost its vertical speed attribute. *)
Definition broken : @instance float :=
  [("mass_props", VMassProps (VNum 2%float));
   ("x_e", VNum 0%float); ("z_e", VNum (-100)%float);
   ("u_e", VNum 50%float);
   ("alpha", VNum 0%float);
   ("Fx_e", VNum 0%float); ("Fz_e", VNum 0%float)].

(** The steady point mass after a push, with a note attached to it. *)
Definition pushed : @instance float :=
  [("mass_props", VMassProps (VNum 2%float));
   ("x_e", VNum 0%float); ("z_e", VNum (-100)%float);
   ("u_e", VNum 50%float); ("w_e", VNum 0%float);
   ("alpha", VNum 0%float);
   ("Fx_e", VNum 3%float); ("Fz_e", VNum 19.62%float);
   ("note", VNum 1%float)].

(** Three time samples of a climb. *)
Definition climb : @instance float :=
  [("mass_props", VMassProps (VNum 2%float));
   ("x_e", VArr [0; 10; 20]%float); ("z_e", VArr [-100; -110; -120]%float);
   ("u_e", VNum 50%float); ("w_e", VNum (-5)%float);
   ("alpha", VNum 0%float);
   ("Fx_e", VNum 0%float); ("Fz_e", VNum 0%float)].

(** The scalar a computation returned, 0 when it returned none. *)
Definition scalar_of (r : result (value float)) : float :=
  match r with
  | Ok (VNum x) | Ok (VNpNum x) => x
  | _ => 0%float
  end.

(** The second time sample of the trajectory, as indexing gives it: the
    items of the arrays are NumPy scalars. *)
Definition sample : @instance float :=
  [("mass_props", VMassProps (VNum 2%float));
   ("x_e", VNpNum 10%float); ("z_e", VNum (-100)%float);
   ("u_e", VNpNum 51%float); ("w_e", VNum 0%float);
   ("alpha", VNum 0%float);
   ("Fx_e", VNum 0%float); ("Fz_e", VNum 0%float)].

(* ================================================================== *)
(** * Facts about dictionaries *)

Lemma mem_In (k : string) (l : list string) : mem k l = true <-> In k l.
Proof.
  unfold mem. rewrite existsb_exists. split.
  - intros [x [Hx He]]. apply String.eqb_eq in He. now subst.
  - intros H. exists k. split; [assumption | apply String.eqb_refl].
Qed.

Lemma mem_not_In (k : string) (l : list string) : mem k l = false <-> ~ In k l.
Proof.
  rewrite <- mem_In. destruct (mem k l); split; congruence.
Qed.

Lemma nodupb_NoDup (l : list string) : nodupb l = true <-> NoDup l.
Proof.
  induction l as [|k l IH]; simpl.
  - split; [constructor | reflexivity].
  - rewrite andb_true_iff, negb_true_iff, mem_not_In, IH. split.
    + intros [H1 H2]. now constructor.
    + intros H. inversion H. now split.
Qed.

Section DictFacts.
Context {A : Type}.
Implicit Types (d : dict A) (k : string) (v : A).

Lemma dict_get_set_same d k v : dict_get (dict_set d k v) k = Some v.
Proof.
  induction d as [|[k' v'] d IH]; simpl.
  - now rewrite String.eqb_refl.
  - destruct (String.eqb k k') eqn:E; simpl; rewrite E; [reflexivity | exact IH].
Qed.

Lemma dict_get_set_other d k k' v :
  k <> k' -> dict_get (dict_set d k v) k' = dict_get d k'.
Proof.
  intros Hne. induction d as [|[k0 v0] d IH]; simpl.
  - apply not_eq_sym in Hne. apply String.eqb_neq in Hne. now rewrite Hne.
  - destruct (String.eqb k k0) eqn:E; simpl.
    + apply String.eqb_eq in E. subst k0.
      apply not_eq_sym in Hne. apply String.eqb_neq in Hne. now rewrite Hne.
    + now rewrite IH.
Qed.

Lemma dict_get_some_In d k : In k (dict_keys d) <-> exists v, dict_get d k = Some v.
Proof.
  induction d as [|[k' v'] d IH]; simpl.
  - split; [contradiction | intros [v H]; discriminate].
  - destruct (String.eqb k k') eqn:E.
    + apply String.eqb_eq in E. subst. split; [eauto | auto].
    + apply String.eqb_neq in E. rewrite <- IH. split.
      * intros [H | H]; [congruence | assumption].
      * auto.
Qed.

Lemma dict_get_none d k : ~ In k (dict_keys d) <-> dict_get d k = None.
Proof.
  rewrite dict_get_some_In. destruct (dict_get d k) as [v|]; split.
  - intros H. exfalso. apply H. eauto.
  - discriminate.
  - reflexivity.
  - intros _ [v H]. discriminate.
Qed.

Lemma dict_get_In d k v : dict_get d k = Some v -> In (k, v) d.
Proof.
  induction d as [|[k' v'] d IH]; simpl; [discriminate|].
  destruct (String.eqb k k') eqn:E.
  - apply String.eqb_eq in E. intros H. injection H as ->. subst. now left.
  - intros H. right. auto.
Qed.

Lemma dict_get_first d k v :
  NoDup (dict_keys d) -> In (k, v) d -> dict_get d k = Some v.
Proof.
  induction d as [|[k' v'] d IH]; simpl; [contradiction|].
  intros Hnd [H | H].
  - injection H as -> ->. now rewrite String.eqb_refl.
  - inversion Hnd as [|? ? Hnot Hnd']; subst.
    destruct (String.eqb k k') eqn:E.
    + apply String.eqb_eq in E. subst. exfalso. apply Hnot.
      change (In (fst (k', v)) (map fst d)). now apply in_map.
    + auto.
Qed.

(** Assigning to a present key keeps the keys; to a new one appends it. *)
Lemma dict_set_fresh d k v : ~ In k (dict_keys d) -> dict_set d k v = d ++ [(k, v)].
Proof.
  induction d as [|[k' v'] d IH]; simpl; [reflexivity|].
  intros H. destruct (String.eqb k k') eqn:E.
  - apply String.eqb_eq in E. subst. exfalso. auto.
  - rewrite IH; auto.
Qed.

Lemma dict_set_present_keys d k v :
  In k (dict_keys d) -> dict_keys (dict_set d k v) = dict_keys d.
Proof.
  induction d as [|[k' v'] d IH]; simpl; [contradiction|].
  intros H. destruct (String.eqb k k') eqn:E; simpl; [reflexivity|].
  apply String.eqb_neq in E. f_equal. apply IH.
  destruct H; [congruence | assumption].
Qed.

Lemma dict_set_keys_In d k v k' :
  In k' (dict_keys (dict_set d k v)) <-> k' = k \/ In k' (dict_keys d).
Proof.
  destruct (in_dec string_dec k (dict_keys d)) as [Hin | Hnot].
  - rewrite dict_set_present_keys by assumption. split; [auto|].
    intros [-> | H]; assumption.
  - rewrite dict_set_fresh by assumption. unfold dict_keys.
    rewrite map_app, in_app_iff. simpl. split.
    + intros [H | [H | []]]; auto.
    + intros [-> | H]; auto.
Qed.

Lemma dict_set_NoDup d k v :
  NoDup (dict_keys d) -> NoDup (dict_keys (dict_set d k v)).
Proof.
  intros Hnd. destruct (in_dec string_dec k (dict_keys d)) as [Hin | Hnot].
  - now rewrite dict_set_present_keys.
  - rewrite dict_set_fresh by assumption. unfold dict_keys in *.
    rewrite map_app. simpl. apply NoDup_app; auto.
    + constructor; [intros [] | constructor].
    + intros x Hx [<- | []]. contradiction.
Qed.

Lemma fold_set_NoDup (items : list (string * A)) d :
  NoDup (dict_keys d) ->
  NoDup (dict_keys (fold_left (fun d kv => dict_set d (fst kv) (snd kv)) items d)).
Proof.
  revert d. induction items as [|[k v] items IH]; simpl; intros d Hd.
  - assumption.
  - apply IH. now apply dict_set_NoDup.
Qed.

(** The keys of a built dictionary are pairwise distinct. *)
Lemma dict_of_items_NoDup (items : list (string * A)) :
  NoDup (dict_keys (dict_of_items items)).
Proof.
  apply fold_set_NoDup. constructor.
Qed.

Lemma fold_set_fresh (items : list (string * A)) d :
  NoDup (dict_keys d ++ map fst items) ->
  fold_left (fun d kv => dict_set d (fst kv) (snd kv)) items d = d ++ items.
Proof.
  revert d. induction items as [|[k v] items IH]; simpl; intros d Hnd.
  - now rewrite app_nil_r.
  - rewrite dict_set_fresh.
    + rewrite IH.
      * now rewrite <- app_assoc.
      * unfold dict_keys. rewrite map_app. simpl. rewrite <- app_assoc. exact Hnd.
    + apply NoDup_remove_2 in Hnd. intros H. apply Hnd. apply in_or_app. now left.
Qed.

(** Building a dictionary from pairs with distinct keys keeps the pairs. *)
Lemma dict_of_items_id (items : list (string * A)) :
  NoDup (map fst items) -> dict_of_items items = items.
Proof.
  intros H. unfold dict_of_items. now rewrite fold_set_fresh.
Qed.

Lemma combine_keys_values d : combine (dict_keys d) (dict_values d) = d.
Proof.
  induction d as [|[k v] d IH]; simpl; [reflexivity | now rewrite IH].
Qed.

Lemma map_fst_combine {B : Type} (ks : list string) (xs : list B) :
  length ks = length xs -> map fst (combine ks xs) = ks.
Proof.
  revert xs. induction ks as [|k ks IH]; intros [|x xs] H; simpl in *;
    try discriminate; [reflexivity|].
  f_equal. apply IH. now injection H.
Qed.

Lemma dict_keys_length d : length (dict_keys d) = length (dict_values d).
Proof.
  unfold dict_keys, dict_values. now rewrite !length_map.
Qed.

End DictFacts.

(* ================================================================== *)
(** * The state container *)

Section StateContainer.
Context {num : Type} {Sc : Scalar num}.
Variable V : Variant num.
Implicit Types (self : @instance num) (st : dict (value num)).

Lemma bind_Ok_inv {A B : Type} (m : result A) (k : A -> result B) (b : B) :
  bind m k = Ok b -> exists a, m = Ok a /\ k a = Ok b.
Proof.
  destruct m as [a|e]; simpl; [eauto | discriminate].
Qed.

(** The keys of a state are pairwise distinct, as in any dictionary. *)
Lemma state_keys_NoDup self st : state V self = Ok st -> NoDup (dict_keys st).
Proof.
  unfold state. intros H. apply bind_Ok_inv in H as [items [_ H]].
  injection H as <-. apply dict_of_items_NoDup.
Qed.

Lemma dict_of_items_state self st :
  state V self = Ok st ->
  dict_of_items (combine (dict_keys st) (dict_values st)) = st.
Proof.
  intros H. rewrite combine_keys_values. apply dict_of_items_id.
  exact (state_keys_NoDup _ H).
Qed.

(** C3: packing the unpacked state of an instance gives back its state:
    [pack_state(unpack_state(D.state)) == D.state], the values being taken
    in the insertion order of the keys; the same holds when [unpack_state]
    is left to read the state itself. *)
Theorem pack_unpack_state_roundtrip self st :
  state V self = Ok st ->
  (t <- unpack_state V self (Some st) ;; pack_state V self (Some t)) = Ok st
  /\ (t <- unpack_state V self None ;; pack_state V self (Some t)) = Ok st
  /\ unpack_state V self (Some st) = Ok (dict_values st).
Proof.
  intros Hst.
  assert (Hpack : pack_state V self (Some (dict_values st)) = Ok st).
  { unfold pack_state. rewrite Hst. simpl.
    rewrite dict_keys_length, Nat.eqb_refl. simpl.
    now rewrite (dict_of_items_state _ Hst). }
  repeat split.
  - simpl. exact Hpack.
  - unfold unpack_state. rewrite Hst. simpl. exact Hpack.
Qed.

(** C5: [pack_state] raises the [ValueError] of line 139 whenever the
    sequence has not as many entries as the state has keys, and hands back
    the instance's own state when no sequence is given. *)
Theorem pack_state_shape self st (array_like_state : list (value num)) :
  state V self = Ok st ->
  (length array_like_state <> length (dict_keys st) ->
   pack_state V self (Some array_like_state) = Err pack_state_error
   /\ raises ValueError (pack_state V self (Some array_like_state)))
  /\ pack_state V self None = Ok st.
Proof.
  intros Hst. split; [|exact Hst].
  intros Hlen.
  assert (E : pack_state V self (Some array_like_state) = Err pack_state_error).
  { unfold pack_state. rewrite Hst. simpl.
    destruct (Nat.eqb_spec (length (dict_keys st)) (length array_like_state)) as [E|E].
    - exfalso. apply Hlen. now symmetry.
    - reflexivity. }
  split; [exact E | rewrite E; reflexivity].
Qed.

(** When the lengths agree the sequence is packed under the state's keys,
    in order. *)
Lemma pack_state_ok self st (xs : list (value num)) :
  state V self = Ok st ->
  length xs = length (dict_keys st) ->
  pack_state V self (Some xs) = Ok (combine (dict_keys st) xs).
Proof.
  intros Hst Hlen. unfold pack_state. rewrite Hst. simpl.
  rewrite <- Hlen, Nat.eqb_refl. simpl. f_equal.
  apply dict_of_items_id.
  rewrite map_fst_combine by (now symmetry).
  exact (state_keys_NoDup _ Hst).
Qed.

End StateContainer.

(* ================================================================== *)
(** * The length operator *)

Section Length.
Context {num : Type} {Sc : Scalar num}.
Variable V : Variant num.
Implicit Types (self : @instance num) (v : value num) (vs : list (value num)).

Lemma len_loop_scalars (n : nat) vs :
  (forall v, In v vs -> vectorized v = false) -> len_loop n vs = Ok n.
Proof.
  induction vs as [|v vs IH]; simpl; intros H; [reflexivity|].
  assert (Hv : vectorized v = false) by (apply H; now left).
  unfold vectorized in Hv. apply negb_false_iff in Hv. rewrite Hv.
  apply IH. intros v' Hv'. apply H. now right.
Qed.

(** Once a vectorized length [n] is known, entries that are scalar or of
    length [n] leave it as it is. *)
Lemma len_loop_agree (n : nat) vs :
  n <> 1 ->
  (forall v, In v vs -> vectorized v = true -> np_length v = n) ->
  len_loop n vs = Ok n.
Proof.
  intros Hn. induction vs as [|v vs IH]; simpl; intros H; [reflexivity|].
  destruct (Nat.eqb_spec (np_length v) 1) as [E1|E1].
  - apply IH. intros v' Hv'. apply H. now right.
  - destruct (Nat.eqb_spec n 1) as [E2|_]; [contradiction|].
    assert (E : np_length v = n).
    { apply H; [now left|]. unfold vectorized.
      apply negb_true_iff. now apply Nat.eqb_neq. }
    rewrite E, Nat.eqb_refl. apply IH. intros v' Hv'. apply H. now right.
Qed.

(** ... and an entry of another vectorized length raises. *)
Lemma len_loop_disagree (n : nat) vs v :
  n <> 1 -> In v vs -> vectorized v = true -> np_length v <> n ->
  len_loop n vs = Err len_error.
Proof.
  intros Hn. induction vs as [|v' vs IH]; simpl; intros Hin Hvec Hne; [contradiction|].
  destruct (Nat.eqb_spec (np_length v') 1) as [E1|E1].
  - destruct Hin as [-> | Hin].
    + unfold vectorized in Hvec. rewrite E1 in Hvec. discriminate.
    + now apply IH.
  - destruct (Nat.eqb_spec n 1) as [E2|_]; [contradiction|].
    destruct (Nat.eqb_spec n (np_length v')) as [E3|E3]; [|reflexivity].
    destruct Hin as [-> | Hin]; [congruence | now apply IH].
Qed.

Lemma len_loop_mismatch vs v1 v2 :
  In v1 vs -> In v2 vs -> vectorized v1 = true -> vectorized v2 = true ->
  np_length v1 <> np_length v2 ->
  len_loop 1 vs = Err len_error.
Proof.
  induction vs as [|v vs IH]; simpl; intros H1 H2 Hv1 Hv2 Hne; [contradiction|].
  assert (Hscalar : forall w : value num, vectorized w = true -> np_length w <> 1).
  { intros w Hw. unfold vectorized in Hw. apply negb_true_iff in Hw.
    now apply Nat.eqb_neq. }
  destruct (Nat.eqb_spec (np_length v) 1) as [E1|E1].
  - destruct H1 as [-> | H1]; [now apply Hscalar in Hv1|].
    destruct H2 as [-> | H2]; [now apply Hscalar in Hv2|].
    now apply IH.
  - destruct (Nat.eq_dec (np_length v1) (np_length v)) as [E|E].
    + (* then [v2] is the one that disagrees, and it is not the head *)
      destruct H2 as [-> | H2]; [congruence|].
      apply len_loop_disagree with (v := v2); auto. congruence.
    + destruct H1 as [-> | H1]; [congruence|].
      apply len_loop_disagree with (v := v1); auto.
Qed.

Lemma len_loop_common (n : nat) vs :
  (forall v, In v vs -> vectorized v = true -> np_length v = n) ->
  len_loop 1 vs = Ok (if existsb vectorized vs then n else 1).
Proof.
  induction vs as [|v vs IH]; simpl; intros H; [reflexivity|].
  unfold vectorized at 1.
  destruct (Nat.eqb_spec (np_length v) 1) as [E1|E1]; simpl.
  - apply IH. intros v' Hv'. apply H. now right.
  - assert (E : np_length v = n).
    { apply H; [now left|]. unfold vectorized.
      apply negb_true_iff. now apply Nat.eqb_neq. }
    rewrite E. apply len_loop_agree; [congruence|].
    intros v' Hv'. apply H. now right.
Qed.

(** C6: [len(D)] raises the [ValueError] of line 225 whenever two
    vectorized state variables differ in length, entries that [np.length]
    sees as scalars (length 1) being passed over; otherwise it returns the
    length the vectorized entries share, and 1 when every entry is a
    scalar. *)
Theorem len_vectorized_state self st :
  state V self = Ok st ->
  (forall v1 v2,
      In v1 (dict_values st) -> In v2 (dict_values st) ->
      vectorized v1 = true -> vectorized v2 = true ->
      np_length v1 <> np_length v2 ->
      __len__ V self = Err len_error /\ raises ValueError (__len__ V self))
  /\ (forall n,
      (forall v, In v (dict_values st) -> vectorized v = true -> np_length v = n) ->
      __len__ V self = Ok (if existsb vectorized (dict_values st) then n else 1)).
Proof.
  intros Hst. unfold __len__. rewrite Hst. simpl. split.
  - intros v1 v2 H1 H2 Hv1 Hv2 Hne.
    rewrite (@len_loop_mismatch (dict_values st) v1 v2 H1 H2 Hv1 Hv2 Hne). now split.
  - intros n H. now apply len_loop_common.
Qed.

End Length.

(* ================================================================== *)
(** * Re-instantiation *)

Section Reinstantiate.
Context {num : Type} {Sc : Scalar num}.
Variable MassProperties_new : value num.
Variable V : Variant num.
Implicit Types (self : @instance num) (k : string).

Local Notation "'attr' self k" :=
  (match dict_get self k with Some v => v | None => VNone end)
  (at level 10, self at level 9, k at level 9, only parsing).

Lemma read_attrs_ok self (names : list string) :
  (forall k, In k names -> exists v, dict_get self k = Some v) ->
  read_attrs self names = Ok (map (fun k => (k, attr self k)) names).
Proof.
  induction names as [|k names IH]; simpl; intros H; [reflexivity|].
  destruct (H k (or_introl eq_refl)) as [v Hv].
  unfold getattr. rewrite Hv. simpl. rewrite IH by auto. reflexivity.
Qed.

Lemma read_attrs_keys self (names : list string) items :
  read_attrs self names = Ok items -> map fst items = names.
Proof.
  revert items. induction names as [|k names IH]; simpl; intros items H.
  - now injection H as <-.
  - apply bind_Ok_inv in H as [v [_ H]].
    apply bind_Ok_inv in H as [rest [Hrest H]].
    injection H as <-. simpl. f_equal. auto.
Qed.

Lemma read_attrs_In self (names : list string) items k v :
  read_attrs self names = Ok items -> In (k, v) items -> dict_get self k = Some v.
Proof.
  revert items. induction names as [|k' names IH]; simpl; intros items H Hin.
  - injection H as <-. contradiction.
  - apply bind_Ok_inv in H as [v' [Hv' H]].
    apply bind_Ok_inv in H as [rest [Hrest H]].
    injection H as <-. destruct Hin as [E | Hin].
    + injection E as -> ->. unfold getattr in Hv'.
      destruct (dict_get self k); [now injection Hv' as -> | discriminate].
    + eauto.
Qed.

Lemma bind_params_ok (params : list (string * option (value num)))
  (kwargs : dict (value num)) (f : string -> value num) :
  (forall p, In p params -> dict_get kwargs (fst p) = Some (f (fst p))) ->
  bind_params params kwargs = Ok (map (fun p => (fst p, f (fst p))) params).
Proof.
  induction params as [|[k dflt] params IH]; simpl; intros H; [reflexivity|].
  pose proof (H (k, dflt) (or_introl eq_refl)) as Hk. simpl in Hk.
  rewrite Hk. simpl. rewrite IH by auto. reflexivity.
Qed.

Lemma wf_variant_inv :
  wf_variant V = true ->
  NoDup (init_args V ++ control_names V)
  /\ NoDup (state_names V)
  /\ (forall k, In k (state_names V) -> In k (map fst (init_params V))).
Proof.
  unfold wf_variant. rewrite !andb_true_iff, !nodupb_NoDup, !forallb_forall.
  intros [[[H1 H2] H3] _]. repeat split; auto.
  intros k Hk. apply mem_In. auto.
Qed.

(** No name the constructor assigns is refused. *)
Lemma wf_variant_assignable k :
  wf_variant V = true -> In k (init_args V ++ control_names V) ->
  refused (read_only V) k = None.
Proof.
  unfold wf_variant. rewrite !andb_true_iff, !forallb_forall.
  intros [_ H] Hk. specialize (H k Hk).
  now destruct (refused (read_only V) k).
Qed.

(** Assignments to names that are not refused all succeed. *)
Lemma assign_all_ok (ro : list string) (items : list (string * value num))
  (d : @instance num) :
  (forall kv, In kv items -> refused ro (fst kv) = None) ->
  assign_all ro items d
  = Ok (fold_left (fun d kv => dict_set d (fst kv) (snd kv)) items d).
Proof.
  unfold assign_all. revert d.
  induction items as [|kv items IH]; intros d H; [reflexivity|].
  cbn [fold_left bind]. unfold setattr at 2.
  rewrite (H kv (or_introl eq_refl)). apply IH. intros kv' Hkv'. apply H. now right.
Qed.

Lemma complete_instance_inv self :
  complete_instance V self = true ->
  (forall k, In k (init_args V ++ control_names V) ->
             exists v, dict_get self k = Some v)
  /\ (exists mp, dict_get self "mass_props" = Some mp /\ is_None mp = false).
Proof.
  unfold complete_instance. rewrite andb_true_iff, forallb_forall.
  intros [H1 H2]. split.
  - intros k Hk. specialize (H1 k Hk).
    destruct (dict_get self k) as [v|]; [eauto | discriminate].
  - destruct (dict_get self "mass_props") as [mp|]; [|discriminate].
    exists mp. split; [reflexivity|]. now destruct mp.
Qed.

(** The state of a complete instance of a well-formed variant can be
    read, and lists the state variables in the declared order. *)
Lemma state_ok self :
  NoDup (state_names V) ->
  (forall k, In k (state_names V) -> exists v, dict_get self k = Some v) ->
  state V self = Ok (map (fun k => (k, attr self k)) (state_names V)).
Proof.
  intros Hnd H. unfold state. rewrite read_attrs_ok by assumption. simpl.
  rewrite dict_of_items_id; [reflexivity|].
  rewrite map_map. simpl. now rewrite map_id.
Qed.

Lemma state_keys self st :
  NoDup (state_names V) -> state V self = Ok st -> dict_keys st = state_names V.
Proof.
  intros Hnd H. unfold state in H. apply bind_Ok_inv in H as [items [Hi H]].
  injection H as <-. apply read_attrs_keys in Hi.
  rewrite dict_of_items_id; [exact Hi | now rewrite Hi].
Qed.

Lemma state_In self st k v :
  state V self = Ok st -> In (k, v) st ->
  In k (state_names V) /\ dict_get self k = Some v.
Proof.
  intros H Hin. unfold state in H. apply bind_Ok_inv in H as [items [Hi H]].
  injection H as <-.
  assert (Hget : dict_get (dict_of_items items) k = Some v).
  { apply dict_get_first; [apply dict_of_items_NoDup | assumption]. }
  assert (Hk : In k (dict_keys (dict_of_items items))).
  { apply dict_get_some_In. eauto. }
  (* a key of the built dictionary is a key of the pairs, with the value
     of the attribute *)
  assert (Hkeys : forall (l : list (string * value num)) d k',
             In k' (dict_keys (fold_left (fun d kv => dict_set d (fst kv) (snd kv)) l d)) ->
             In k' (dict_keys d) \/ In k' (map fst l)).
  { induction l as [|[k0 v0] l IH]; simpl; intros d k' Hk'; [now left|].
    apply IH in Hk' as [Hk' | Hk']; [|now right; right].
    apply dict_set_keys_In in Hk' as [-> | Hk']; [right; now left | now left]. }
  assert (Hvals : forall (l : list (string * value num)) d,
             (forall k' v', In (k', v') l -> dict_get self k' = Some v') ->
             (forall k' v', dict_get d k' = Some v' -> dict_get self k' = Some v') ->
             forall k' v', dict_get (fold_left (fun d kv => dict_set d (fst kv) (snd kv)) l d) k' = Some v' ->
                        dict_get self k' = Some v').
  { induction l as [|[k0 v0] l IH]; simpl; intros d Hl Hd k' v' Hg; [eauto|].
    eapply IH; [| |exact Hg]; [eauto|].
    intros k1 v1 H1. destruct (string_dec k0 k1) as [->|Hne].
    - rewrite dict_get_set_same in H1. injection H1 as <-. apply Hl. now left.
    - rewrite dict_get_set_other in H1 by assumption. auto. }
  split.
  - apply Hkeys in Hk as [[] | Hk]. now rewrite (read_attrs_keys _ _ Hi) in Hk.
  - eapply Hvals; [| |exact Hget].
    + intros k' v' H'. eapply read_attrs_In; eauto.
    + simpl. discriminate.
Qed.

Lemma reinstantiated_keys self :
  dict_keys (reinstantiated V self) = init_args V ++ control_names V.
Proof.
  unfold reinstantiated, dict_keys. rewrite map_app, !map_map. simpl.
  now rewrite !map_id.
Qed.

Lemma reinstantiated_get_arg self k :
  NoDup (init_args V ++ control_names V) -> In k (init_args V) ->
  dict_get (reinstantiated V self) k = Some (attr self k).
Proof.
  intros Hnd Hk. apply dict_get_first.
  - now rewrite reinstantiated_keys.
  - unfold reinstantiated. apply in_or_app. left.
    apply in_map_iff. exists k. now split.
Qed.

Lemma reinstantiated_get_control self c :
  NoDup (init_args V ++ control_names V) -> In c (control_names V) ->
  dict_get (reinstantiated V self) c = Some (VNum num_zero).
Proof.
  intros Hnd Hc. apply dict_get_first.
  - now rewrite reinstantiated_keys.
  - unfold reinstantiated. apply in_or_app. right.
    apply in_map_iff. exists c. now split.
Qed.

(** The constructor, given the attributes of a complete instance, stores
    them and zeroes the control variables. *)
Lemma init_of_attrs self :
  wf_variant V = true -> complete_instance V self = true ->
  (kwargs <- read_attrs self (init_args V) ;;
   __init__ MassProperties_new V (dict_of_items kwargs))
  = Ok (reinstantiated V self).
Proof.
  intros Hwf Hc.
  destruct (wf_variant_inv Hwf) as [Hnd [Hnds Hsub]].
  destruct (complete_instance_inv _ Hc) as [Hall [mp [Hmp Hnn]]].
  assert (Hnda : NoDup (init_args V)) by (eapply NoDup_app_remove_r; exact Hnd).
  rewrite read_attrs_ok by (intros k Hk; apply Hall, in_or_app; now left).
  cbn [bind].
  set (kw := map (fun k => (k, attr self k)) (init_args V)).
  assert (Hkeys : map fst kw = init_args V).
  { unfold kw. rewrite map_map. cbn [fst]. apply map_id. }
  rewrite dict_of_items_id by (now rewrite Hkeys).
  unfold __init__.
  replace (forallb (fun k => mem k (init_args V)) (dict_keys kw)) with true.
  2:{ symmetry. apply forallb_forall. intros k Hk. apply mem_In.
      unfold dict_keys in Hk. now rewrite Hkeys in Hk. }
  assert (Hget : forall k, In k (init_args V) -> dict_get kw k = Some (attr self k)).
  { intros k Hk. apply dict_get_first.
    - unfold dict_keys. now rewrite Hkeys.
    - unfold kw. apply in_map_iff. exists k. now split. }
  rewrite (Hget "mass_props") by (now left).
  rewrite Hmp.
  rewrite (@bind_params_ok (init_params V) kw (fun k => attr self k)).
  2:{ intros p Hp. apply Hget. right. now apply in_map. }
  cbn [bind].
  assert (Hitems : forall mp0 : value num,
             map fst
               (("mass_props", mp0)
                  :: map (fun p => (fst p, attr self (fst p))) (init_params V)
                  ++ map (fun c => (c, VNum num_zero)) (control_names V))
             = init_args V ++ control_names V).
  { intros mp0. unfold init_args. cbn [map fst app].
    rewrite map_app, !map_map. cbn [fst]. now rewrite map_id. }
  rewrite assign_all_ok.
  2:{ intros kv Hkv. apply wf_variant_assignable; [exact Hwf|].
      rewrite <- (Hitems (match mp with VNone => MassProperties_new | _ => mp end)).
      apply in_map. exact Hkv. }
  f_equal. rewrite fold_set_fresh.
  - simpl app. unfold reinstantiated, init_args. simpl map. rewrite Hmp.
    rewrite map_map. f_equal.
    + f_equal. now destruct mp.
  - replace (dict_keys (@nil (string * value num))) with (@nil string)
      by reflexivity.
    rewrite app_nil_l, Hitems. exact Hnd.
Qed.

(** Without a new state the new instance is the re-instantiated one. *)
Lemma get_new_instance_plain self :
  wf_variant V = true -> complete_instance V self = true ->
  get_new_instance_with_state MassProperties_new V self None
  = Ok (reinstantiated V self).
Proof.
  intros Hwf Hc. unfold get_new_instance_with_state.
  pose proof (init_of_attrs _ Hwf Hc) as H.
  destruct (read_attrs self (init_args V)) as [kwargs|e]; simpl in *; [|discriminate].
  rewrite H. reflexivity.
Qed.

End Reinstantiate.

(* ================================================================== *)
(** * New instances from a state *)

Section NewInstance.
Context {num : Type} {Sc : Scalar num}.
Variable MassProperties_new : value num.
Variable V : Variant num.
Implicit Types (self : @instance num) (k : string).

Lemma getattr_get self k v : dict_get self k = Some v -> getattr self k = Ok v.
Proof.
  unfold getattr. now intros ->.
Qed.

Lemma mem_cons k k0 (l : list string) : mem k (k0 :: l) = (String.eqb k k0 || mem k l)%bool.
Proof. reflexivity. Qed.

(** The loop of [_set_state] over keys of [d] that are no read-only
    property runs to its end: these keys take their value in [d], every
    other attribute stays, and no attribute is added when the keys were
    attributes already. *)
Lemma set_state_loop_spec (d : dict (value num)) (ks : list string) self :
  (forall k, In k ks -> In k (dict_keys d)) ->
  (forall k, In k ks -> refused (read_only V) k = None) ->
  exists new,
    set_state_loop V self d ks = (new, None)
    /\ (forall k, dict_get new k = if mem k ks then dict_get d k else dict_get self k)
    /\ ((forall k, In k ks -> In k (dict_keys self)) ->
        dict_keys new = dict_keys self).
Proof.
  revert self. induction ks as [|k0 ks IH]; intros self Hks Hro.
  - exists self. repeat split; reflexivity.
  - destruct (proj1 (dict_get_some_In d k0) (Hks k0 (or_introl eq_refl))) as [v0 Hv0].
    assert (Hg : dict_getitem d k0 = Ok v0)
      by (unfold dict_getitem; now rewrite Hv0).
    cbn [set_state_loop]. rewrite Hg. cbn [bind]. unfold setattr.
    rewrite (Hro k0 (or_introl eq_refl)).
    destruct (IH (dict_set self k0 v0)) as [new [Hnew [Hget Hkeys]]].
    { intros k Hk. apply Hks. now right. }
    { intros k Hk. apply Hro. now right. }
    exists new. split; [exact Hnew | split].
    + intros k. rewrite Hget, mem_cons.
      destruct (mem k ks); [now rewrite orb_true_r|].
      rewrite orb_false_r.
      destruct (String.eqb_spec k k0) as [->|Hne].
      * now rewrite dict_get_set_same.
      * now rewrite dict_get_set_other by congruence.
    + intros Hin.
      assert (Hk0 : dict_keys (dict_set self k0 v0) = dict_keys self).
      { apply dict_set_present_keys. apply Hin. now left. }
      rewrite <- Hk0. apply Hkeys. intros k Hk. rewrite Hk0. apply Hin. now right.
Qed.

Lemma dict_get_combine (names : list string) (xs : list (value num)) :
  NoDup names -> length names = length xs ->
  map (fun k => (k, match dict_get (combine names xs) k with
                    | Some v => v
                    | None => VNone
                    end)) names
  = combine names xs.
Proof.
  revert xs. induction names as [|k names IH]; intros [|x xs] Hnd Hlen;
    simpl in *; try discriminate; [reflexivity|].
  rewrite String.eqb_refl. f_equal.
  inversion Hnd as [|? ? Hnot Hnd']; subst.
  etransitivity; [|apply (IH xs Hnd'); now injection Hlen].
  apply map_ext_in. intros k' Hk'.
  destruct (String.eqb_spec k' k) as [->|_]; [contradiction | reflexivity].
Qed.

(** A state variable is not a control variable, and not [mass_props]. *)
Lemma state_name_not_control k :
  wf_variant V = true -> In k (state_names V) -> ~ In k (control_names V).
Proof.
  intros Hwf Hk Hc. destruct (wf_variant_inv V Hwf) as [Hnd [_ Hsub]].
  apply Hsub in Hk.
  assert (Hin : In k (init_args V)) by (right; exact Hk).
  clear Hk. induction (init_args V) as [|a l IH]; [contradiction|].
  simpl in Hnd. inversion Hnd as [|? ? Hnot Hnd']; subst.
  destruct Hin as [-> | Hin]; [|auto].
  apply Hnot. apply in_or_app. now right.
Qed.

Lemma state_name_is_arg k :
  wf_variant V = true -> In k (state_names V) -> In k (init_args V).
Proof.
  intros Hwf Hk. destruct (wf_variant_inv V Hwf) as [_ [_ Hsub]].
  right. now apply Hsub.
Qed.

(** Assigning a state that names state variables only. *)
Lemma set_state_ok self (new_state : option (state_like (num := num))) :
  wf_variant V = true ->
  (forall k, In k (state_names V) -> In k (dict_keys self)) ->
  state_like_ok V new_state = true ->
  exists new d,
    _set_state V self new_state = Ok new
    /\ (forall k, In k (dict_keys d) -> In k (state_names V))
    /\ (forall k, dict_get new k
                  = if mem k (dict_keys d) then dict_get d k else dict_get self k)
    /\ dict_keys new = dict_keys self
    /\ match new_state with
       | None => d = []
       | Some (SDict d') => d = d'
       | Some (SSeq xs) => d = combine (state_names V) xs
       end.
Proof.
  intros Hwf Hhas Hok.
  destruct (wf_variant_inv V Hwf) as [_ [Hnds _]].
  assert (Hset : forall d,
             (forall k, In k (dict_keys d) -> In k (state_names V)) ->
             exists new,
               set_state_loop V self d (dict_keys d) = (new, None)
               /\ (forall k, dict_get new k
                             = if mem k (dict_keys d) then dict_get d k
                               else dict_get self k)
               /\ dict_keys new = dict_keys self).
  { intros d Hd.
    destruct (set_state_loop_spec d (dict_keys d) self) as [new [Hnew [Hget Hkeys]]].
    - auto.
    - intros k Hk. apply wf_variant_assignable; [exact Hwf|].
      apply in_or_app. left. apply state_name_is_arg; auto.
    - exists new. repeat split; try assumption. apply Hkeys. auto. }
  destruct new_state as [[d | xs]|]; cbn [state_like_ok] in *.
  - assert (Hd : forall k, In k (dict_keys d) -> In k (state_names V)).
    { intros k Hk. apply mem_In. rewrite forallb_forall in Hok. auto. }
    destruct (Hset d Hd) as [new [H1 [H2 H3]]].
    exists new, d. repeat split; try assumption.
    unfold _set_state, set_state_try. now rewrite H1.
  - apply Nat.eqb_eq in Hok.
    assert (Hst : state V self
                  = Ok (map (fun k => (k, match dict_get self k with
                                          | Some v => v
                                          | None => VNone
                                          end)) (state_names V))).
    { apply state_ok; [assumption|]. intros k Hk.
      apply dict_get_some_In. auto. }
    pose proof (state_keys V _ Hnds Hst) as Hkeys.
    assert (Hpack : pack_state V self (Some xs) = Ok (combine (state_names V) xs)).
    { rewrite (pack_state_ok V _ _ Hst) by (now rewrite Hkeys). now rewrite Hkeys. }
    assert (Hd : dict_keys (combine (state_names V) xs) = state_names V).
    { unfold dict_keys. apply map_fst_combine. now symmetry. }
    destruct (Hset (combine (state_names V) xs)) as [new [H1 [H2 H3]]].
    { intros k Hk. now rewrite Hd in Hk. }
    exists new, (combine (state_names V) xs). repeat split; try assumption.
    + unfold _set_state, set_state_try. cbn [exn_cls iterated].
      rewrite Hpack. cbn [bind]. now rewrite H1.
    + intros k Hk. now rewrite Hd in Hk.
  - exists self, []. repeat split; try reflexivity. intros k [].
Qed.

(** C2 (amended): for a new state that is absent, a dict over
    state-variable names, or a sequence with one value per state variable,
    [get_new_instance_with_state] returns a new instance in which every
    control variable is 0 whatever the source had accumulated, the mass
    properties and every constructor argument that is not a state variable
    are those of the source, and the state variables are the given ones
    (those of the source where the new state names none). *)
Theorem new_instance_resets_controls self (new_state : option (state_like (num := num))) :
  wf_variant V = true ->
  complete_instance V self = true ->
  state_like_ok V new_state = true ->
  exists new,
    get_new_instance_with_state MassProperties_new V self new_state = Ok new
    /\ (forall c, In c (control_names V) -> getattr new c = Ok (VNum num_zero))
    /\ getattr new "mass_props" = getattr self "mass_props"
    /\ (forall k, In k (init_args V) -> ~ In k (state_names V) ->
                  getattr new k = getattr self k)
    /\ match new_state with
       | None =>
           forall k, In k (state_names V) -> getattr new k = getattr self k
       | Some (SDict d) =>
           forall k, In k (state_names V) ->
                     getattr new k = match dict_get d k with
                                     | Some v => Ok v
                                     | None => getattr self k
                                     end
       | Some (SSeq xs) => state V new = Ok (combine (state_names V) xs)
       end.
Proof.
  intros Hwf Hc Hok.
  destruct (wf_variant_inv V Hwf) as [Hnd [Hnds Hsub]].
  destruct (complete_instance_inv V _ Hc) as [Hall _].
  set (R := reinstantiated V self).
  assert (HR : get_new_instance_with_state MassProperties_new V self new_state
               = _set_state V R new_state).
  { unfold get_new_instance_with_state.
    pose proof (init_of_attrs MassProperties_new V _ Hwf Hc) as H.
    destruct (read_attrs self (init_args V)) as [kwargs|e]; cbn [bind] in *;
      [|discriminate].
    now rewrite H. }
  rewrite HR. clear HR.
  assert (Harg : forall k, In k (init_args V) -> getattr R k = getattr self k).
  { intros k Hk. unfold R, getattr.
    rewrite reinstantiated_get_arg by assumption.
    destruct (Hall k) as [v Hv]; [apply in_or_app; now left|].
    now rewrite Hv. }
  assert (Hctl : forall c, In c (control_names V) -> dict_get R c = Some (VNum num_zero)).
  { intros c Hc'. now apply reinstantiated_get_control. }
  destruct (@set_state_ok R new_state Hwf) as [new [d [Hnew [Hd [Hget [_ Hshape]]]]]];
    [|assumption|].
  { intros k Hk. unfold R. rewrite reinstantiated_keys. apply in_or_app. left.
    now apply state_name_is_arg. }
  exists new. split; [exact Hnew|].
  assert (Hother : forall k, ~ In k (state_names V) -> getattr new k = getattr R k).
  { intros k Hk. unfold getattr. rewrite Hget.
    destruct (mem k (dict_keys d)) eqn:E; [|reflexivity].
    apply mem_In in E. exfalso. auto. }
  assert (Hmp : ~ In "mass_props" (state_names V)).
  { intros H. apply Hsub in H. unfold init_args in Hnd. simpl in Hnd.
    inversion Hnd as [|? ? Hnot _]; subst. apply Hnot. apply in_or_app. now left. }
  split; [|split; [|split]].
  - intros c Hc'. rewrite Hother.
    + apply getattr_get. auto.
    + intros H. exact (state_name_not_control c Hwf H Hc').
  - rewrite Hother by assumption. apply Harg. now left.
  - intros k Hk Hns. rewrite Hother by assumption. now apply Harg.
  - destruct new_state as [[d' | xs]|]; cbn [state_like_ok] in *; subst d.
    + (* a dict *)
      intros k Hk. unfold getattr at 1. rewrite Hget.
      destruct (mem k (dict_keys d')) eqn:E.
      * apply mem_In, dict_get_some_In in E as [v Hv]. now rewrite Hv.
      * apply mem_not_In in E. apply dict_get_none in E. rewrite E.
        apply Harg. now apply state_name_is_arg.
    + (* a sequence: packed under the state names first *)
      apply Nat.eqb_eq in Hok.
      assert (Hkeys : dict_keys (combine (state_names V) xs) = state_names V).
      { unfold dict_keys. apply map_fst_combine. now symmetry. }
      assert (Hin : forall k, In k (state_names V) ->
                              dict_get new k = dict_get (combine (state_names V) xs) k).
      { intros k Hk. rewrite Hget, Hkeys.
        apply mem_In in Hk. now rewrite Hk. }
      rewrite state_ok; [|assumption|].
      * f_equal.
        etransitivity; [|apply (dict_get_combine xs Hnds); now symmetry].
        apply map_ext_in. intros k Hk. now rewrite Hin.
      * intros k Hk. rewrite (Hin k Hk). apply dict_get_some_In.
        now rewrite Hkeys.
    + (* no new state *)
      intros k Hk. unfold getattr at 1. rewrite Hget. cbn [dict_keys map mem existsb].
      apply Harg. now apply state_name_is_arg.
Qed.

End NewInstance.

(* ================================================================== *)
(** * The instance indexer *)

Section Indexer.
Context {num : Type} {Sc : Scalar num}.
Variable MassProperties_new : value num.
Variable V : Variant num.
Implicit Types (self : @instance num) (k : string) (v a : value num) (index : Z).

(** [get_item_of_attribute] raises nothing but its own [IndexError]. *)
Lemma get_item_error index a e :
  get_item_of_attribute index a = Err e -> e = getitem_error.
Proof.
  unfold get_item_of_attribute, subscript.
  destruct a as [| x | xs | m | y | s]; simpl; try discriminate.
  - destruct (_ && _)%bool.
    + destruct (nth_error xs _); simpl; [discriminate | now intros [= <-]].
    + simpl. now intros [= <-].
  - now intros [= <-].
  - destruct (_ && _)%bool.
    + destruct (String.get _ s); simpl; [discriminate | now intros [= <-]].
    + simpl. now intros [= <-].
Qed.

(** What Python cannot subscript is handed back as it is. *)
Lemma get_item_pass index a :
  not_subscriptable a = true -> get_item_of_attribute index a = Ok a.
Proof.
  destruct a; simpl; intros H; try reflexivity; discriminate.
Qed.

(** A NumPy scalar cannot be indexed by any integer. *)
Lemma get_item_numpy_scalar index (x : num) :
  get_item_of_attribute index (VNpNum x) = Err getitem_error.
Proof. reflexivity. Qed.

Lemma get_item_in_range index (xs : list num) :
  (0 <= index < Z.of_nat (length xs))%Z ->
  get_item_of_attribute index (VArr xs)
  = Ok (VNpNum (nth (Z.to_nat index) xs num_zero)).
Proof.
  intros [H0 H1]. unfold get_item_of_attribute, subscript.
  destruct (Z.ltb_spec index 0) as [Hneg|_]; [lia|].
  destruct (Z.leb_spec 0 index) as [_|Hneg]; [|lia].
  destruct (Z.ltb_spec index (Z.of_nat (length xs))) as [_|Hge]; [|lia].
  simpl. destruct (nth_error xs (Z.to_nat index)) as [x|] eqn:E.
  - simpl. now rewrite (nth_error_nth _ _ _ E).
  - apply nth_error_None in E. lia.
Qed.

Lemma get_item_out_of_range index (xs : list num) :
  (index < - Z.of_nat (length xs) \/ Z.of_nat (length xs) <= index)%Z ->
  get_item_of_attribute index (VArr xs) = Err getitem_error.
Proof.
  intros H. unfold get_item_of_attribute, subscript.
  destruct (Z.ltb_spec index 0) as [Hneg|Hpos].
  - destruct (Z.leb_spec 0 (index + Z.of_nat (length xs))) as [Hle|_]; [lia|].
    reflexivity.
  - destruct (Z.leb_spec 0 index) as [_|Hneg]; [|lia].
    destruct (Z.ltb_spec index (Z.of_nat (length xs))) as [Hlt|_]; [lia|].
    reflexivity.
Qed.

Lemma item_or_self_get index a :
  (is_array a || not_subscriptable a)%bool = true ->
  (forall xs, a = VArr xs -> (0 <= index < Z.of_nat (length xs))%Z) ->
  get_item_of_attribute index a = Ok (item_or_self index a).
Proof.
  intros Hkind H. destruct a as [| x | xs | m | y | s]; try reflexivity;
    try discriminate.
  simpl item_or_self. apply get_item_in_range. now apply H.
Qed.

Lemma item_or_self_scalar index a :
  (is_array a || not_subscriptable a)%bool = true ->
  vectorized (item_or_self index a) = false.
Proof.
  destruct a; simpl; intros H; try reflexivity; discriminate.
Qed.

Lemma plain_or_array_inv self k v :
  plain_or_array V self = true ->
  In k (init_args V) -> dict_get self k = Some v ->
  (is_array v || not_subscriptable v)%bool = true.
Proof.
  unfold plain_or_array. rewrite forallb_forall. intros H Hk Hget.
  specialize (H k Hk). rewrite Hget in H. now destruct v.
Qed.

Lemma dict_set_middle (pre l : dict (value num)) k v x :
  ~ In k (dict_keys pre) ->
  dict_set (pre ++ (k, v) :: l) k x = pre ++ (k, x) :: l.
Proof.
  induction pre as [|[k' v'] pre IH]; simpl; intros H.
  - now rewrite String.eqb_refl.
  - destruct (String.eqb_spec k k') as [->|Hne].
    + exfalso. auto.
    + rewrite IH; auto.
Qed.

Lemma getitem_fold_err index (l : list (string * value num)) e :
  fold_left (getitem_step V index) l (Err e) = Err e.
Proof.
  induction l as [|kv l IH]; simpl; [reflexivity | exact IH].
Qed.

(** When every attribute can be indexed, each is replaced by its item. *)
Lemma getitem_fold_ok index (h : value num -> value num)
  (l pre : dict (value num)) :
  NoDup (dict_keys (pre ++ l)) ->
  (forall kv, In kv l -> refused (read_only V) (fst kv) = None) ->
  (forall kv, In kv l -> get_item_of_attribute index (snd kv) = Ok (h (snd kv))) ->
  fold_left (getitem_step V index) l (Ok (pre ++ l))
  = Ok (pre ++ map (fun kv => (fst kv, h (snd kv))) l).
Proof.
  revert pre. induction l as [|[k v] l IH]; intros pre Hnd Hro Hall.
  - reflexivity.
  - cbn [fold_left]. unfold getitem_step at 2. cbn [bind fst snd].
    pose proof (Hall (k, v) (or_introl eq_refl)) as Hhead. cbn [snd] in Hhead.
    rewrite Hhead. cbn [bind snd].
    pose proof (Hro (k, v) (or_introl eq_refl)) as Hk. cbn [fst] in Hk.
    unfold setattr. rewrite Hk. rewrite dict_set_middle.
    2:{ unfold dict_keys in Hnd. rewrite map_app in Hnd. simpl in Hnd.
        apply NoDup_remove_2 in Hnd. intros H. apply Hnd.
        apply in_or_app. now left. }
    replace (pre ++ (k, h v) :: l) with ((pre ++ [(k, h v)]) ++ l)
      by (now rewrite <- app_assoc).
    rewrite IH.
    + cbn [map fst snd]. now rewrite <- app_assoc.
    + unfold dict_keys in *. rewrite <- app_assoc. simpl.
      rewrite map_app in *. exact Hnd.
    + intros kv Hkv. apply Hro. now right.
    + intros kv Hkv. apply Hall. now right.
Qed.

(** When some attribute cannot be indexed, the loop raises. *)
Lemma getitem_fold_raise index (l : list (string * value num)) acc kv e :
  (forall kv', In kv' l -> refused (read_only V) (fst kv') = None) ->
  In kv l -> get_item_of_attribute index (snd kv) = Err e ->
  fold_left (getitem_step V index) l (Ok acc) = Err getitem_error.
Proof.
  revert acc. induction l as [|kv' l IH]; intros acc Hro Hin He; [contradiction|].
  cbn [fold_left]. unfold getitem_step at 2. cbn [bind].
  destruct (get_item_of_attribute index (snd kv')) as [x|e'] eqn:E; cbn [bind].
  - unfold setattr. rewrite (Hro kv' (or_introl eq_refl)).
    destruct Hin as [-> | Hin]; [congruence|].
    apply IH; [|assumption..]. intros kv'' H''. apply Hro. now right.
  - apply get_item_error in E. subst e'. apply getitem_fold_err.
Qed.

Lemma getitem_unfold self index :
  __getitem__ MassProperties_new V self index
  = (new_instance <- get_new_instance_with_state MassProperties_new V self None ;;
     fold_left (getitem_step V index) (dict_items new_instance) (Ok new_instance)).
Proof. reflexivity. Qed.

Lemma dict_get_map_values (h : value num -> value num) (d : dict (value num)) k :
  dict_get (map (fun kv => (fst kv, h (snd kv))) d) k
  = option_map h (dict_get d k).
Proof.
  induction d as [|[k' v'] d IH]; simpl; [reflexivity|].
  destruct (String.eqb k k'); [reflexivity | exact IH].
Qed.

Lemma arrays_of_length_inv self (n : nat) k (xs : list num) :
  arrays_of_length V self n = true ->
  In k (init_args V) -> dict_get self k = Some (VArr xs) -> length xs = n.
Proof.
  unfold arrays_of_length. rewrite forallb_forall. intros H Hk Hget.
  specialize (H k Hk). rewrite Hget in H. now apply Nat.eqb_eq.
Qed.

Lemma reinstantiated_In self (kv : string * value num) :
  In kv (reinstantiated V self) ->
  (In (fst kv) (init_args V)
   /\ snd kv = match dict_get self (fst kv) with Some v => v | None => VNone end)
  \/ (In (fst kv) (control_names V) /\ snd kv = VNum num_zero).
Proof.
  unfold reinstantiated. intros H. apply in_app_or in H as [H | H];
    apply in_map_iff in H as [k [<- Hk]]; [left | right]; now split.
Qed.

(** The attributes of the re-instantiated object can all be assigned. *)
Lemma reinstantiated_assignable self (kv : string * value num) :
  wf_variant V = true -> In kv (reinstantiated V self) ->
  refused (read_only V) (fst kv) = None.
Proof.
  intros Hwf Hkv. apply wf_variant_assignable; [exact Hwf|].
  rewrite <- (reinstantiated_keys V self). unfold dict_keys. now apply in_map.
Qed.

(** Indexing every attribute of the re-instantiated object at once. *)
Lemma getitem_ok self index :
  wf_variant V = true -> complete_instance V self = true ->
  plain_or_array V self = true ->
  (forall k xs, In k (init_args V) -> dict_get self k = Some (VArr xs) ->
                (0 <= index < Z.of_nat (length xs))%Z) ->
  __getitem__ MassProperties_new V self index
  = Ok (map (fun kv => (fst kv, item_or_self index (snd kv)))
          (reinstantiated V self)).
Proof.
  intros Hwf Hc Hplain Hlen. rewrite getitem_unfold.
  rewrite get_new_instance_plain by assumption. cbn [bind]. unfold dict_items.
  destruct (wf_variant_inv V Hwf) as [Hnd _].
  apply (@getitem_fold_ok index (item_or_self index) (reinstantiated V self) []).
  - rewrite app_nil_l. now rewrite reinstantiated_keys.
  - intros kv Hkv. eapply reinstantiated_assignable; eauto.
  - intros kv Hkv.
    apply reinstantiated_In in Hkv as [[Hk Hv] | [_ Hv]]; rewrite Hv;
      [|reflexivity].
    destruct (dict_get self (fst kv)) as [v|] eqn:E; [|reflexivity].
    apply item_or_self_get.
    + eapply plain_or_array_inv; eassumption.
    + intros xs Hxs. rewrite Hxs in E. exact (Hlen _ _ Hk E).
Qed.

(** C4 (amended): when every attribute the constructor takes (mass
    properties, state and indirect control variables) is an array of
    length [N] or an object Python cannot subscript ([None], a Python
    number, a mass-properties object), [len(D)] is [N] (1 when no state
    variable is vectorized), and for [0 <= i < N] [D[i]] is a new instance
    of length 1 in which each of those attributes is the i-th element of
    the source's array, or the source's value as it is when that is not
    subscriptable; the control variables of [D[i]] are 0, the construction
    default. *)
Theorem getitem_vectorized self (N : nat) :
  wf_variant V = true ->
  complete_instance V self = true ->
  plain_or_array V self = true ->
  arrays_of_length V self N = true ->
  (exists st,
      state V self = Ok st
      /\ __len__ V self = Ok (if existsb vectorized (dict_values st) then N else 1))
  /\ (forall index, (0 <= index < Z.of_nat N)%Z ->
       exists new,
         __getitem__ MassProperties_new V self index = Ok new
         /\ __len__ V new = Ok 1
         /\ (forall k v, In k (init_args V) -> dict_get self k = Some v ->
                         getattr new k = Ok (item_or_self index v))
         /\ (forall c, In c (control_names V) ->
                       getattr new c = Ok (VNum num_zero))).
Proof.
  intros Hwf Hc Hplain Harr.
  destruct (wf_variant_inv V Hwf) as [Hnd [Hnds Hsub]].
  destruct (complete_instance_inv V _ Hc) as [Hall _].
  split.
  - assert (Hst : exists st, state V self = Ok st).
    { eexists. apply state_ok; [assumption|]. intros k Hk. apply Hall.
      apply in_or_app. left. now apply state_name_is_arg. }
    destruct Hst as [st Hst]. exists st. split; [exact Hst|].
    unfold __len__. rewrite Hst. cbn [bind]. apply len_loop_common.
    intros v Hv Hvec. apply in_map_iff in Hv as [[k v'] [<- Hkv]].
    destruct (state_In V _ _ _ Hst Hkv) as [Hk Hget]. cbn [snd] in *.
    assert (Hkind : (is_array v' || not_subscriptable v')%bool = true).
    { eapply plain_or_array_inv;
        [eassumption | apply state_name_is_arg; eassumption | eassumption]. }
    destruct v' as [| x | xs | m | y | s]; try discriminate.
    simpl. eapply arrays_of_length_inv; eauto. now apply state_name_is_arg.
  - intros index Hidx.
    set (new := map (fun kv => (fst kv, item_or_self index (snd kv)))
                  (reinstantiated V self)).
    assert (Hget : forall k, dict_get new k
                             = option_map (item_or_self index)
                                 (dict_get (reinstantiated V self) k)).
    { intros k. apply dict_get_map_values. }
    exists new. split; [|split; [|split]].
    + apply getitem_ok; try assumption. intros k xs Hk Hxs.
      assert (length xs = N) as -> by (eapply arrays_of_length_inv; eauto).
      exact Hidx.
    + assert (Hst : state V new
                    = Ok (map (fun k => (k, match dict_get new k with
                                            | Some v => v
                                            | None => VNone
                                            end)) (state_names V))).
      { apply state_ok; [assumption|]. intros k Hk. rewrite Hget.
        rewrite reinstantiated_get_arg;
          [simpl; eauto | assumption | now apply state_name_is_arg]. }
      unfold __len__. rewrite Hst. cbn [bind]. apply len_loop_scalars.
      intros v Hv. unfold dict_values in Hv. rewrite map_map in Hv.
      apply in_map_iff in Hv as [k [<- Hk]]. cbn [snd]. rewrite Hget.
      pose proof (state_name_is_arg V k Hwf Hk) as Harg.
      rewrite reinstantiated_get_arg by assumption.
      cbn [option_map]. apply item_or_self_scalar.
      destruct (Hall k) as [v Hv]; [apply in_or_app; now left|].
      rewrite Hv. eapply plain_or_array_inv; eassumption.
    + intros k v Hk Hv. apply getattr_get. rewrite Hget.
      rewrite reinstantiated_get_arg by assumption. now rewrite Hv.
    + intros c Hc'. apply getattr_get. rewrite Hget.
      now rewrite reinstantiated_get_control.
Qed.

(** An instance none of whose attributes can be subscripted is never
    indexed: every index gives back the re-instantiated object. *)
Lemma getitem_scalar_instance self index :
  wf_variant V = true -> complete_instance V self = true ->
  all_not_subscriptable V self = true ->
  __getitem__ MassProperties_new V self index = Ok (reinstantiated V self).
Proof.
  intros Hwf Hc Hno.
  assert (Hpass : forall k v, In k (init_args V) -> dict_get self k = Some v ->
                              not_subscriptable v = true).
  { intros k v Hk Hget. unfold all_not_subscriptable in Hno.
    rewrite forallb_forall in Hno. specialize (Hno k Hk). now rewrite Hget in Hno. }
  rewrite getitem_unfold.
  rewrite get_new_instance_plain by assumption. cbn [bind]. unfold dict_items.
  destruct (wf_variant_inv V Hwf) as [Hnd _].
  etransitivity;
    [apply (@getitem_fold_ok index (fun v => v) (reinstantiated V self) [])|].
  4:{ rewrite app_nil_l. f_equal.
      etransitivity; [|apply (map_id (reinstantiated V self))].
      apply map_ext. now intros [k v]. }
  - rewrite app_nil_l. now rewrite reinstantiated_keys.
  - intros kv Hkv. eapply reinstantiated_assignable; eauto.
  - intros kv Hkv. apply get_item_pass.
    apply reinstantiated_In in Hkv as [[Hk Hv] | [_ Hv]]; rewrite Hv;
      [|reflexivity].
    destruct (dict_get self (fst kv)) as [v|] eqn:E; [|reflexivity].
    exact (Hpass _ _ Hk E).
Qed.

(** C7 (amended): indexing with an integer that reaches or exceeds the
    length of an array-valued state variable (or lies below minus that
    length) raises the [IndexError] of line 206; an instance none of whose
    attributes Python can subscript ([None], Python numbers, a
    mass-properties object) has length 1 and is never indexed: every
    index, however large, gives back the re-instantiated object. *)
Theorem getitem_out_of_range self :
  wf_variant V = true ->
  complete_instance V self = true ->
  (forall index k (xs : list num),
      In k (state_names V) ->
      dict_get self k = Some (VArr xs) ->
      (index < - Z.of_nat (length xs) \/ Z.of_nat (length xs) <= index)%Z ->
      __getitem__ MassProperties_new V self index = Err getitem_error
      /\ raises IndexError (__getitem__ MassProperties_new V self index))
  /\ (all_not_subscriptable V self = true ->
      __len__ V self = Ok 1
      /\ forall index,
          __getitem__ MassProperties_new V self index
          = Ok (reinstantiated V self)).
Proof.
  intros Hwf Hc.
  destruct (wf_variant_inv V Hwf) as [Hnd [Hnds _]].
  destruct (complete_instance_inv V _ Hc) as [Hall _].
  split.
  - intros index k xs Hk Hget Hidx.
    assert (E : __getitem__ MassProperties_new V self index = Err getitem_error).
    { rewrite getitem_unfold. rewrite get_new_instance_plain by assumption.
      cbn [bind]. unfold dict_items.
      apply getitem_fold_raise with (kv := (k, VArr xs)) (e := getitem_error).
      - intros kv Hkv. eapply reinstantiated_assignable; eauto.
      - apply dict_get_In. rewrite reinstantiated_get_arg;
          [now rewrite Hget | assumption | now apply state_name_is_arg].
      - now apply get_item_out_of_range. }
    split; [exact E | rewrite E; reflexivity].
  - intros Hno. split.
    + assert (Hst : state V self
                    = Ok (map (fun k => (k, match dict_get self k with
                                            | Some v => v
                                            | None => VNone
                                            end)) (state_names V))).
      { apply state_ok; [assumption|]. intros k Hk. apply Hall.
        apply in_or_app. left. now apply state_name_is_arg. }
      unfold __len__. rewrite Hst. cbn [bind]. apply len_loop_scalars.
      intros v Hv. unfold dict_values in Hv. rewrite map_map in Hv.
      apply in_map_iff in Hv as [k [<- Hk]]. cbn [snd].
      pose proof (state_name_is_arg V k Hwf Hk) as Harg.
      destruct (Hall k) as [v Hv]; [apply in_or_app; now left|].
      rewrite Hv. unfold all_not_subscriptable in Hno.
      rewrite forallb_forall in Hno. specialize (Hno k Harg).
      rewrite Hv in Hno. now destruct v.
    + intros index. now apply getitem_scalar_instance.
Qed.

End Indexer.

(* ================================================================== *)
(** * The trajectory constraint binder *)

Section Binder.
Context {num : Type} {Sc : Scalar num}.
Variable V : Variant num.
Context {Opti : Type}.
Variable constrain_derivative :
  Opti -> value num -> value num -> value num -> string -> result Opti.
Implicit Types (self : @instance num) (opti : Opti) (time : value num)
  (method name : string) (sd : dict (value num)).




(** C1: a selected name that is no key of the state, the derivatives
    having the keys of the state as their contract says, is looked up in
    the derivatives at line 275, outside the [try]: the [KeyError] of that
    lookup leaves [constrain_derivatives] as it is, and no [ValueError] is
    raised. *)
Theorem constrain_unknown_name_KeyError self opti time method st sd name
  (rest : list string) :
  state V self = Ok st ->
  state_derivatives V self = Ok sd ->
  dict_keys sd = dict_keys st ->
  ~ In name (dict_keys st) ->
  constrain_derivatives V constrain_derivative self opti time method
    (WNames (name :: rest)) = Err (Raise KeyError name)
  /\ ~ raises ValueError
       (constrain_derivatives V constrain_derivative self opti time method
          (WNames (name :: rest))).
Proof.
  intros Hst Hsd Hkeys Hname.
  assert (E : constrain_derivatives V constrain_derivative self opti time method
                (WNames (name :: rest)) = Err (Raise KeyError name)).
  { unfold constrain_derivatives. cbn [bind]. rewrite Hsd. cbn [bind constrain_loop].
    unfold dict_getitem at 1.
    rewrite <- Hkeys in Hname. apply dict_get_none in Hname. now rewrite Hname. }
  split; [exact E|]. rewrite E. simpl. discriminate.
Qed.

(** The handler of line 286 is reached only by a lookup inside the [try]:
    when the derivatives name a variable that the state lacks, the
    [KeyError] of [self.state[name]] becomes the [ValueError] that names
    it. *)
Lemma constrain_unknown_state_ValueError self opti time method st sd name d
  (rest : list string) :
  state V self = Ok st ->
  state_derivatives V self = Ok sd ->
  dict_get sd name = Some d -> is_None d = false ->
  ~ In name (dict_keys st) ->
  constrain_derivatives V constrain_derivative self opti time method
    (WNames (name :: rest))
  = Err (Raise ValueError
           ("This dynamics instance does not have a state named '" ++ name ++ "'!")).
Proof.
  intros Hst Hsd Hd Hnn Hname.
  unfold constrain_derivatives. cbn [bind]. rewrite Hsd. cbn [bind constrain_loop].
  unfold dict_getitem at 1. rewrite Hd. cbn [bind]. rewrite Hnn, Hst. cbn [bind].
  unfold dict_getitem at 1. apply dict_get_none in Hname. rewrite Hname.
  reflexivity.
Qed.

End Binder.

(* ================================================================== *)
(** * Gravity and the derived accessors *)

Section Accessors.
Context {num : Type} {Sc : Scalar num}.
Variable V : Variant num.
Implicit Types (self : @instance num) (m z : value num).

(** C9: [add_gravity_force(g)] is the call [add_force(Fz=mass * g,
    axes="earth")], [Fx] and [Fy] left out, with [g = 9.81] when it is not
    given: a force of [mass * g] along the earth frame's z axis, which
    points down.  It returns [None]; the instance it leaves is the one
    [add_force] leaves. *)
Theorem add_gravity_force_calls_add_force self (g : option (value num)) m :
  getattr self "mass_props" = Ok (VMassProps m) ->
  add_gravity_force V self g
  = (Fz <- py_mul m (match g with Some g => g | None => VNum num_g end) ;;
     self' <- add_force V self None None (Some Fz) (Some "earth") ;;
     Ok (VNone, self'))
  /\ (forall mass g0,
         m = VNum mass -> g = Some (VNum g0) ->
         add_gravity_force V self g
         = (self' <- add_force V self None None
                       (Some (VNum (num_mul mass g0))) (Some "earth") ;;
            Ok (VNone, self')))
  /\ (forall r self',
         add_gravity_force V self g = Ok (r, self') -> r = VNone).
Proof.
  intros Hmp.
  assert (E : add_gravity_force V self g
              = (Fz <- py_mul m (match g with Some g => g | None => VNum num_g end) ;;
                 self' <- add_force V self None None (Some Fz) (Some "earth") ;;
                 Ok (VNone, self'))).
  { unfold add_gravity_force. rewrite Hmp. reflexivity. }
  split; [exact E | split].
  - intros mass g0 -> ->. rewrite E. reflexivity.
  - intros r self' H. rewrite E in H.
    destruct (py_mul m _) as [Fz|e]; cbn [bind] in H; [|discriminate].
    destruct (add_force V self None None (Some Fz) (Some "earth")) as [s|e];
      cbn [bind] in H; [|discriminate].
    now injection H as <- _.
Qed.

(** C10: [altitude] is [-z_e], and [potential_energy] is
    [mass * 9.81 * altitude], that is [mass * 9.81 * (-z_e)], the product
    taken from the left.  Both are read-only: they are functions of the
    instance that return a value and no instance. *)
Theorem altitude_potential_energy self z m :
  getattr self "z_e" = Ok z ->
  getattr self "mass_props" = Ok (VMassProps m) ->
  altitude self = py_neg z
  /\ potential_energy self
     = (mg <- py_mul m (VNum num_g) ;; h <- py_neg z ;; py_mul mg h)
  /\ (forall mass z_e,
         m = VNum mass -> z = VNum z_e ->
         altitude self = Ok (VNum (num_neg z_e))
         /\ potential_energy self
            = Ok (VNum (num_mul (num_mul mass num_g) (num_neg z_e)))).
Proof.
  intros Hz Hmp.
  assert (Ha : altitude self = py_neg z).
  { unfold altitude. rewrite Hz. reflexivity. }
  assert (Hp : potential_energy self
               = (mg <- py_mul m (VNum num_g) ;; h <- py_neg z ;; py_mul mg h)).
  { unfold potential_energy. rewrite Hmp, Ha. reflexivity. }
  repeat split; try assumption.
  - subst. rewrite Ha. reflexivity.
  - subst. rewrite Hp. reflexivity.
Qed.

End Accessors.

(* ================================================================== *)
(** * The theorems at work on the point mass *)

Lemma float_5_not_0 : 5%float <> 0%float.
Proof.
  intros H. apply (f_equal (fun x => PrimFloat.eqb x 0)) in H.
  vm_compute in H. discriminate.
Qed.

Lemma float_0_not_6 : 0%float <> 6%float.
Proof.
  intros H. apply (f_equal (fun x => PrimFloat.eqb x 0)) in H.
  vm_compute in H. discriminate.
Qed.

(** The state of the steady point mass, packed and unpacked. *)
Lemma pack_unpack_state_roundtrip_witness :
  (t <- unpack_state PointMass2D steady None ;;
   pack_state PointMass2D steady (Some t))
  = Ok [("x_e", VNum 0%float); ("z_e", VNum (-100)%float);
        ("u_e", VNum 50%float); ("w_e", VNum 0%float)].
Proof.
  apply (pack_unpack_state_roundtrip PointMass2D steady). reflexivity.
Defined.

(** One value for four state variables. *)
Lemma pack_state_shape_witness :
  raises ValueError (pack_state PointMass2D steady (Some [VNum 1%float])).
Proof.
  eapply (pack_state_shape PointMass2D steady [VNum 1%float]).
  - reflexivity.
  - simpl. discriminate.
Defined.

(** Three time samples. *)
Lemma len_vectorized_state_witness : __len__ PointMass2D trajectory = Ok 3.
Proof.
  destruct (len_vectorized_state PointMass2D trajectory eq_refl) as [_ H].
  apply (H 3).
  intros v [<-|[<-|[<-|[<-|[]]]]] Hv; solve [reflexivity | discriminate].
Defined.

(** Lengths 3 and 2 side by side. *)
Example len_ragged : raises ValueError (__len__ PointMass2D ragged).
Proof.
  reflexivity.
Qed.

(** A sequence of four values installed as the new state of the
    trajectory: the accumulated force [5, 6, 7] is gone. *)
Lemma new_instance_resets_controls_witness :
  exists new,
    get_new_instance_with_state unit_mass PointMass2D trajectory
      (Some (SSeq [VNum 1; VNum 2; VNum 3; VNum 4]%float)) = Ok new
    /\ getattr new "Fx_e" = Ok (VNum 0%float)
    /\ getattr new "mass_props" = Ok (VMassProps (VNum 2%float))
    /\ state PointMass2D new
       = Ok [("x_e", VNum 1); ("z_e", VNum 2); ("u_e", VNum 3); ("w_e", VNum 4)]%float.
Proof.
  destruct (new_instance_resets_controls unit_mass PointMass2D trajectory
              (Some (SSeq [VNum 1; VNum 2; VNum 3; VNum 4]%float))
              eq_refl eq_refl eq_refl)
    as [new [Hnew [Hctl [Hmp [_ Hst]]]]].
  exists new. repeat split.
  - exact Hnew.
  - apply Hctl. simpl. auto.
  - exact Hmp.
  - exact Hst.
Defined.

(** C2 as stated fails: a new state may name a control variable, and
    [_set_state] assigns whatever key it is given.  The new instance then
    holds the force 5 and not the construction default. *)
Lemma new_instance_keeps_given_control :
  exists new,
    get_new_instance_with_state unit_mass PointMass2D steady
      (Some (SDict [("Fx_e", VNum 5%float)])) = Ok new
    /\ In "Fx_e" (control_names PointMass2D)
    /\ getattr new "Fx_e" = Ok (VNum 5%float)
    /\ getattr new "Fx_e" <> Ok (VNum num_zero).
Proof.
  eexists. split; [reflexivity|]. split; [simpl; auto|]. split; [reflexivity|].
  intros H. apply (f_equal scalar_of) in H. exact (float_5_not_0 H).
Qed.

(** The second time sample of the trajectory. *)
Lemma getitem_vectorized_witness :
  exists new,
    __getitem__ unit_mass PointMass2D trajectory 1 = Ok new
    /\ __len__ PointMass2D new = Ok 1
    /\ getattr new "x_e" = Ok (VNpNum 10%float)
    /\ getattr new "z_e" = Ok (VNum (-100)%float)
    /\ getattr new "Fx_e" = Ok (VNum 0%float).
Proof.
  destruct (getitem_vectorized unit_mass PointMass2D trajectory 3
              eq_refl eq_refl eq_refl eq_refl) as [_ H].
  destruct (H 1%Z) as [new [Hnew [Hlen [Hargs Hctl]]]]; [lia|].
  exists new. repeat split.
  - exact Hnew.
  - exact Hlen.
  - apply (Hargs "x_e" (VArr [0; 10; 20]%float)); [simpl; auto | reflexivity].
  - apply (Hargs "z_e" (VNum (-100)%float)); [simpl; auto | reflexivity].
  - apply Hctl. simpl. auto.
Defined.

(** C4 as stated fails on the control variables: the trajectory holds the
    vectorized force [5, 6, 7], whose item 1 is 6, and [D[1]] holds 0.
    It fails as well when an attribute that is no state variable is an
    array of another length: with every vectorized state variable of
    length 3, [D[2]] raises.  And it fails on an instance that holds NumPy
    scalars, as an indexed trajectory does: its length is 1 and [D[0]]
    raises. *)
Lemma getitem_drops_accumulated_force :
  (__len__ PointMass2D trajectory = Ok 3
   /\ getattr trajectory "Fx_e" = Ok (VArr [5; 6; 7]%float)
   /\ subscript (VArr [5; 6; 7]%float) 1 = Ok (VNpNum 6%float)
   /\ exists new,
        __getitem__ unit_mass PointMass2D trajectory 1 = Ok new
        /\ getattr new "Fx_e" = Ok (VNum 0%float)
        /\ scalar_of (getattr new "Fx_e") <> 6%float)
  /\ (__len__ PointMass2D pitching = Ok 3
      /\ state PointMass2D pitching
         = Ok [("x_e", VArr [0; 10; 20]); ("z_e", VNum (-100));
               ("u_e", VArr [50; 51; 52]); ("w_e", VNum 0)]%float
      /\ __getitem__ unit_mass PointMass2D pitching 2 = Err getitem_error)
  /\ (__getitem__ unit_mass PointMass2D trajectory 1 = Ok sample
      /\ __len__ PointMass2D sample = Ok 1
      /\ arrays_of_length PointMass2D sample 1 = true
      /\ __getitem__ unit_mass PointMass2D sample 0 = Err getitem_error).
Proof.
  split; [|split].
  - repeat split. eexists. split; [reflexivity|]. split; [reflexivity|].
    exact float_0_not_6.
  - repeat split.
  - repeat split.
Qed.

(** Index 3 on three time samples. *)
Lemma getitem_out_of_range_witness :
  raises IndexError (__getitem__ unit_mass PointMass2D trajectory 3).
Proof.
  destruct (getitem_out_of_range unit_mass PointMass2D trajectory
              eq_refl eq_refl) as [H _].
  apply (H 3%Z "x_e" [0; 10; 20]%float).
  - simpl. auto.
  - reflexivity.
  - right. simpl. lia.
Defined.

(** C7 as stated fails on a state of scalars: its vectorized length is 1,
    the index 5 exceeds it, and the instance comes back unindexed. *)
Lemma getitem_scalar_never_raises :
  __len__ PointMass2D steady = Ok 1
  /\ __getitem__ unit_mass PointMass2D steady 5 = Ok steady.
Proof.
  split; reflexivity.
Qed.

(** The name [y_e] on a point mass in the vertical plane. *)
Lemma constrain_unknown_name_witness :
  constrain_derivatives PointMass2D log_constrain_derivative steady []
    (VArr [0; 1]%float) "midpoint" (WNames ["y_e"])
  = Err (Raise KeyError "y_e").
Proof.
  eapply (constrain_unknown_name_KeyError PointMass2D log_constrain_derivative
            steady [] (VArr [0; 1]%float) "midpoint" "y_e" []).
  - reflexivity.
  - reflexivity.
  - reflexivity.
  - simpl. intros [H|[H|[H|[H|[]]]]]; discriminate.
Defined.

(** Gliding: the derivative of [w_e] is [None], and three constraints
    are recorded for four state variables. *)
Example constrain_glide :
  constrain_derivatives PointMass2D_glide log_constrain_derivative steady []
    (VArr [0; 1]%float) "midpoint" WAll
  = Ok [(VNum 50, VNum 0, VArr [0; 1], "midpoint");
        (VNum 0, VNum (-100), VArr [0; 1], "midpoint");
        (VNum 0, VNum 50, VArr [0; 1], "midpoint")]%float.
Proof. reflexivity. Qed.

(** Gravity on a mass of 2 with the default [g]. *)
Lemma add_gravity_force_witness :
  add_gravity_force PointMass2D steady None
  = (self' <- add_force PointMass2D steady None None
                (Some (VNum (2 * 9.81)%float)) (Some "earth") ;;
     Ok (VNone, self')).
Proof.
  destruct (add_gravity_force_calls_add_force PointMass2D steady None
              (m := VNum 2%float) eq_refl) as [H _].
  exact H.
Defined.

(** The scenario of the specification: after [add_gravity_force()] alone,
    the derivative of [w_e] is [g] and that of [x_e] is [u_e]. *)
Example gravity_then_derivatives :
  (self <- __init__ unit_mass PointMass2D
             [("x_e", VNum 0); ("z_e", VNum (-100)); ("u_e", VNum 50);
              ("w_e", VNum 0)]%float ;;
   '(_, self) <- add_gravity_force PointMass2D self None ;;
   state_derivatives PointMass2D self)
  = Ok [("x_e", VNum 50); ("z_e", VNum 0); ("u_e", VNum 0);
        ("w_e", VNum 9.81)]%float.
Proof. reflexivity. Qed.

(** A mass of 2 at [z_e = -100]: 100 m up, 1962 J. *)
Lemma altitude_potential_energy_witness :
  altitude steady = Ok (VNum 100%float)
  /\ potential_energy steady = Ok (VNum 1962%float).
Proof.
  destruct (altitude_potential_energy steady
              (z := VNum (-100)%float) (m := VNum 2%float) eq_refl eq_refl)
    as [_ [_ H]].
  exact (H 2%float (-100)%float eq_refl eq_refl).
Defined.

(* ================================================================== *)
(** * More on the state container *)

Section StateContainerMore.
Context {num : Type} {Sc : Scalar num}.
Variable V : Variant num.
Implicit Types (self : @instance num) (st : dict (value num)) (k : string).

Lemma map_snd_combine {B : Type} (ks : list string) (xs : list B) :
  length ks = length xs -> map snd (combine ks xs) = xs.
Proof.
  revert xs. induction ks as [|k ks IH]; intros [|x xs] H; simpl in *;
    try discriminate; [reflexivity|].
  f_equal. apply IH. now injection H.
Qed.

(** The first attribute that is missing stops the reading. *)
Lemma read_attrs_missing self (names : list string) k :
  In k names -> dict_get self k = None ->
  exists k', In k' names /\ dict_get self k' = None
             /\ read_attrs self names = Err (Raise AttributeError k').
Proof.
  induction names as [|k0 names IH]; intros Hin Hk; [contradiction|].
  cbn [read_attrs]. unfold getattr at 1.
  destruct (dict_get self k0) as [v|] eqn:E.
  - destruct Hin as [-> | Hin]; [congruence|].
    destruct (IH Hin Hk) as [k' [Hk' [Hnone Hr]]].
    exists k'. repeat split; [now right | assumption|].
    cbn [bind]. now rewrite Hr.
  - exists k0. repeat split; [now left | assumption].
Qed.

(** X1: unpacking a packed sequence gives the sequence back:
    [unpack_state(pack_state(xs)) == xs] whenever [xs] has one entry per
    state key, and the packed dict has the keys of the state, in order. *)
Theorem unpack_pack_state_roundtrip self st (xs : list (value num)) :
  state V self = Ok st ->
  length xs = length (dict_keys st) ->
  (d <- pack_state V self (Some xs) ;; unpack_state V self (Some d)) = Ok xs
  /\ exists d, pack_state V self (Some xs) = Ok d /\ dict_keys d = dict_keys st.
Proof.
  intros Hst Hlen.
  pose proof (pack_state_ok V _ _ Hst Hlen) as Hp.
  split.
  - rewrite Hp. cbn [bind unpack_state]. f_equal. unfold dict_values.
    apply map_snd_combine. now symmetry.
  - eexists. split; [exact Hp|]. unfold dict_keys at 1.
    apply map_fst_combine. now symmetry.
Qed.

(** X3: a state variable that the instance does not hold makes every
    reader of the state raise [AttributeError]: the [state] property,
    [unpack_state()], [pack_state()] and [len()]. *)
Theorem missing_state_attribute_raises self k :
  In k (state_names V) ->
  dict_get self k = None ->
  raises AttributeError (state V self)
  /\ raises AttributeError (unpack_state V self None)
  /\ raises AttributeError (pack_state V self None)
  /\ (forall xs, raises AttributeError (pack_state V self (Some xs)))
  /\ raises AttributeError (__len__ V self).
Proof.
  intros Hk Hnone.
  destruct (read_attrs_missing _ _ _ Hk Hnone) as [k' [_ [_ Hr]]].
  assert (Hst : state V self = Err (Raise AttributeError k')).
  { unfold state. now rewrite Hr. }
  repeat split.
  - now rewrite Hst.
  - unfold unpack_state. now rewrite Hst.
  - unfold pack_state. now rewrite Hst.
  - intros xs. unfold pack_state. now rewrite Hst.
  - unfold __len__. now rewrite Hst.
Qed.

End StateContainerMore.

(* ================================================================== *)
(** * More on assigning a state and on new instances *)

Section SetStateMore.
Context {num : Type} {Sc : Scalar num}.
Variable MassProperties_new : value num.
Variable V : Variant num.
Implicit Types (self : @instance num) (k : string) (d : dict (value num)).

Local Notation "'attr' self k" :=
  (match dict_get self k with Some v => v | None => VNone end)
  (at level 10, self at level 9, k at level 9, only parsing).


Lemma first_refusal_None (ks : list string) :
  first_refusal V ks = None <-> forall k, In k ks -> refused (read_only V) k = None.
Proof.
  induction ks as [|k0 ks IH]; cbn [first_refusal].
  - split; [intros _ k [] | reflexivity].
  - destruct (refused (read_only V) k0) eqn:E.
    + split; [discriminate|]. intros H. rewrite <- E. apply H. now left.
    + rewrite IH. split.
      * intros H k [<- | Hk]; [exact E | now apply H].
      * intros H k Hk. apply H. now right.
Qed.


(** X4: [_set_state] on a dict none of whose keys is a read-only property
    of the class: each key of the dict takes the dict's value, a key that
    was no attribute becomes one, every other attribute stays as it was
    and none is removed; [_set_state(None)] changes nothing. *)
Theorem set_state_dict_frame self d :
  assignable V d = true ->
  (exists new,
      _set_state V self (Some (SDict d)) = Ok new
      /\ (forall k v, dict_get d k = Some v -> getattr new k = Ok v)
      /\ (forall k, dict_get d k = None -> getattr new k = getattr self k)
      /\ (forall k, In k (dict_keys new)
                    <-> In k (dict_keys self) \/ In k (dict_keys d)))
  /\ _set_state V self None = Ok self.
Proof.
  intros Hd. split; [|reflexivity].
  destruct (set_state_loop_spec V d (dict_keys d) self) as [new [Hnew [Hget _]]].
  { auto. }
  { intros k Hk. unfold assignable in Hd. rewrite forallb_forall in Hd.
    specialize (Hd k Hk). now destruct (refused (read_only V) k). }
  exists new. split; [|split; [|split]].
  - unfold _set_state, set_state_try. now rewrite Hnew.
  - intros k v Hv. unfold getattr. rewrite Hget.
    assert (Hk : mem k (dict_keys d) = true).
    { apply mem_In, dict_get_some_In. eauto. }
    now rewrite Hk, Hv.
  - intros k Hnone. unfold getattr. rewrite Hget.
    assert (Hk : mem k (dict_keys d) = false).
    { apply mem_not_In, dict_get_none. exact Hnone. }
    now rewrite Hk.
  - intros k. rewrite !dict_get_some_In, Hget.
    destruct (mem k (dict_keys d)) eqn:E.
    + apply mem_In in E. split; [auto|]. intros _. now apply dict_get_some_In.
    + apply mem_not_In in E. split; [auto|].
      intros [H | H]; [assumption|]. apply dict_get_some_In in H. contradiction.
Qed.


(** X5: unlike [get_new_instance_with_state], [_set_state] does not reset
    the control variables: when the new state names state variables only,
    the accumulated forces and every other attribute that is no state
    variable are left as they were, and no attribute is added. *)
Theorem set_state_keeps_controls self (new_state : option (state_like (num := num))) :
  wf_variant V = true ->
  complete_instance V self = true ->
  state_like_ok V new_state = true ->
  exists new,
    _set_state V self new_state = Ok new
    /\ (forall c, In c (control_names V) -> getattr new c = getattr self c)
    /\ (forall k, ~ In k (state_names V) -> getattr new k = getattr self k)
    /\ dict_keys new = dict_keys self.
Proof.
  intros Hwf Hc Hok.
  destruct (complete_instance_inv V _ Hc) as [Hall _].
  destruct (set_state_ok V self new_state Hwf) as [new [d [H1 [H2 [H3 [H4 _]]]]]];
    [|assumption|].
  { intros k Hk. apply dict_get_some_In, Hall, in_or_app. left.
    now apply state_name_is_arg. }
  assert (Hother : forall k, ~ In k (state_names V) -> getattr new k = getattr self k).
  { intros k Hk. unfold getattr. rewrite H3.
    destruct (mem k (dict_keys d)) eqn:E; [|reflexivity].
    apply mem_In in E. exfalso. auto. }
  exists new. repeat split; try assumption.
  intros c Hc'. apply Hother. intros H.
  exact (state_name_not_control V c Hwf H Hc').
Qed.

Lemma mass_props_not_state :
  wf_variant V = true -> ~ In "mass_props" (state_names V).
Proof.
  intros Hwf H. destruct (wf_variant_inv V Hwf) as [Hnd [_ Hsub]].
  apply Hsub in H. unfold init_args in Hnd. cbn [app] in Hnd.
  inversion Hnd as [|? ? Hnot _]; subst. apply Hnot. apply in_or_app. now left.
Qed.

Lemma get_new_instance_unfold self (new_state : option (state_like (num := num))) :
  wf_variant V = true -> complete_instance V self = true ->
  get_new_instance_with_state MassProperties_new V self new_state
  = _set_state V (reinstantiated V self) new_state.
Proof.
  intros Hwf Hc. unfold get_new_instance_with_state.
  pose proof (init_of_attrs MassProperties_new V _ Hwf Hc) as H.
  destruct (read_attrs self (init_args V)) as [kwargs|e]; cbn [bind] in *;
    [|discriminate].
  now rewrite H.
Qed.

Lemma reinstantiated_complete self :
  wf_variant V = true -> complete_instance V self = true ->
  complete_instance V (reinstantiated V self) = true.
Proof.
  intros Hwf Hc.
  destruct (wf_variant_inv V Hwf) as [Hnd _].
  destruct (complete_instance_inv V _ Hc) as [_ [mp [Hmp Hnn]]].
  unfold complete_instance. apply andb_true_iff. split.
  - apply forallb_forall. intros k Hk. apply in_app_or in Hk as [Hk | Hk].
    + now rewrite reinstantiated_get_arg.
    + now rewrite reinstantiated_get_control.
  - rewrite reinstantiated_get_arg; [|assumption | now left].
    rewrite Hmp. now destruct mp.
Qed.

Lemma reinstantiated_idem self :
  wf_variant V = true ->
  reinstantiated V (reinstantiated V self) = reinstantiated V self.
Proof.
  intros Hwf. destruct (wf_variant_inv V Hwf) as [Hnd _].
  unfold reinstantiated at 1 3. f_equal.
  apply map_ext_in. intros k Hk. now rewrite reinstantiated_get_arg.
Qed.

Lemma reinstantiated_state self :
  wf_variant V = true -> complete_instance V self = true ->
  state V (reinstantiated V self) = state V self.
Proof.
  intros Hwf Hc.
  destruct (wf_variant_inv V Hwf) as [Hnd [Hnds _]].
  destruct (complete_instance_inv V _ Hc) as [Hall _].
  rewrite !state_ok; try assumption.
  - f_equal. apply map_ext_in. intros k Hk.
    rewrite reinstantiated_get_arg; [reflexivity | assumption|].
    now apply state_name_is_arg.
  - intros k Hk. apply Hall, in_or_app. left. now apply state_name_is_arg.
  - intros k Hk. rewrite reinstantiated_get_arg; [eauto | assumption|].
    now apply state_name_is_arg.
Qed.

(** X6: a new instance made without a new state has the state of its
    source, hence its length, holds exactly the constructor's attributes
    followed by the control variables, and is a fixed point: making a new
    instance from it gives it back. *)
Theorem new_instance_plain_idempotent self :
  wf_variant V = true ->
  complete_instance V self = true ->
  exists new,
    get_new_instance_with_state MassProperties_new V self None = Ok new
    /\ state V new = state V self
    /\ __len__ V new = __len__ V self
    /\ dict_keys new = init_args V ++ control_names V
    /\ get_new_instance_with_state MassProperties_new V new None = Ok new.
Proof.
  intros Hwf Hc. exists (reinstantiated V self).
  pose proof (reinstantiated_state _ Hwf Hc) as Hst.
  repeat split.
  - now apply get_new_instance_plain.
  - exact Hst.
  - unfold __len__. now rewrite Hst.
  - apply reinstantiated_keys.
  - rewrite get_new_instance_plain; [|assumption | now apply reinstantiated_complete].
    now rewrite reinstantiated_idem.
Qed.

(** X7: whatever the new state, as long as it names state variables only,
    the new instance holds exactly the constructor's attributes followed
    by the control variables: an attribute the source had beyond these is
    not carried over. *)
Theorem new_instance_attribute_names self
  (new_state : option (state_like (num := num))) :
  wf_variant V = true ->
  complete_instance V self = true ->
  state_like_ok V new_state = true ->
  exists new,
    get_new_instance_with_state MassProperties_new V self new_state = Ok new
    /\ dict_keys new = init_args V ++ control_names V
    /\ complete_instance V new = true.
Proof.
  intros Hwf Hc Hok.
  rewrite get_new_instance_unfold by assumption.
  pose proof (reinstantiated_complete _ Hwf Hc) as HcR.
  destruct (complete_instance_inv V _ HcR) as [_ [mp [Hmp Hnn]]].
  destruct (set_state_ok V (reinstantiated V self) new_state Hwf)
    as [new [d [H1 [H2 [H3 [H4 _]]]]]]; [|assumption|].
  { intros k Hk. rewrite reinstantiated_keys. apply in_or_app. left.
    now apply state_name_is_arg. }
  rewrite reinstantiated_keys in H4.
  exists new. split; [exact H1 | split; [exact H4|]].
  unfold complete_instance. apply andb_true_iff. split.
  - apply forallb_forall. intros k Hk. rewrite <- H4 in Hk.
    apply dict_get_some_In in Hk as [v Hv]. now rewrite Hv.
  - rewrite H3.
    assert (E : mem "mass_props" (dict_keys d) = false).
    { apply mem_not_In. intros H. apply H2 in H.
      exact (mass_props_not_state Hwf H). }
    rewrite E, Hmp. now destruct mp.
Qed.

End SetStateMore.

(* ================================================================== *)
(** * More on new instances and on indexing *)

Section NewInstanceMore.
Context {num : Type} {Sc : Scalar num}.
Variable MassProperties_new : value num.
Variable V : Variant num.
Implicit Types (self : @instance num) (k : string) (index : Z).



(** X9: a sequence that has not one value per state variable is refused
    with the [ValueError] of [pack_state], by [_set_state] and by
    [get_new_instance_with_state] alike. *)
Theorem new_instance_wrong_length self (xs : list (value num)) :
  wf_variant V = true ->
  complete_instance V self = true ->
  length xs <> length (state_names V) ->
  _set_state V self (Some (SSeq xs)) = Err pack_state_error
  /\ get_new_instance_with_state MassProperties_new V self (Some (SSeq xs))
     = Err pack_state_error.
Proof.
  intros Hwf Hc Hlen.
  destruct (wf_variant_inv V Hwf) as [Hnd [Hnds _]].
  assert (Hraise : forall s, complete_instance V s = true ->
                             _set_state V s (Some (SSeq xs)) = Err pack_state_error).
  { intros s Hs. destruct (complete_instance_inv V _ Hs) as [Hall _].
    assert (Hst : exists st, state V s = Ok st).
    { eexists. apply state_ok; [assumption|]. intros k Hk.
      apply Hall, in_or_app. left. now apply state_name_is_arg. }
    destruct Hst as [st Hst].
    pose proof (state_keys V _ Hnds Hst) as Hkeys.
    unfold _set_state, set_state_try. cbn [exn_cls iterated].
    unfold pack_state. rewrite Hst. cbn [bind]. rewrite Hkeys.
    destruct (Nat.eqb_spec (length (state_names V)) (length xs)) as [E|_];
      [exfalso; now apply Hlen | reflexivity]. }
  split.
  - now apply Hraise.
  - rewrite get_new_instance_unfold by assumption.
    apply Hraise. now apply reinstantiated_complete.
Qed.

(** X10: an instance that lacks an attribute the constructor takes cannot
    be re-instantiated or indexed: both raise [AttributeError]. *)
Theorem new_instance_missing_attribute self k
  (new_state : option (state_like (num := num))) index :
  In k (init_args V) ->
  dict_get self k = None ->
  raises AttributeError
    (get_new_instance_with_state MassProperties_new V self new_state)
  /\ raises AttributeError (__getitem__ MassProperties_new V self index).
Proof.
  intros Hk Hnone.
  destruct (read_attrs_missing _ _ _ Hk Hnone) as [k' [_ [_ Hr]]].
  assert (H : forall ns, get_new_instance_with_state MassProperties_new V self ns
                         = Err (Raise AttributeError k')).
  { intros ns. unfold get_new_instance_with_state. now rewrite Hr. }
  split.
  - now rewrite H.
  - rewrite getitem_unfold, H. reflexivity.
Qed.

Lemma get_item_negative index (xs : list num) :
  (- Z.of_nat (length xs) <= index < 0)%Z ->
  get_item_of_attribute index (VArr xs)
  = get_item_of_attribute (index + Z.of_nat (length xs)) (VArr xs).
Proof.
  intros [Hlo Hhi]. unfold get_item_of_attribute, subscript.
  destruct (Z.ltb_spec index 0) as [_|Hge]; [|lia].
  destruct (Z.ltb_spec (index + Z.of_nat (length xs)) 0) as [Hlt|_]; [lia|].
  reflexivity.
Qed.

Lemma getitem_fold_ext (i j : Z) (l : list (string * value num)) :
  (forall kv, In kv l ->
              get_item_of_attribute i (snd kv) = get_item_of_attribute j (snd kv)) ->
  forall acc, fold_left (getitem_step V i) l acc = fold_left (getitem_step V j) l acc.
Proof.
  induction l as [|kv l IH]; intros H acc; [reflexivity|].
  cbn [fold_left].
  assert (E : getitem_step V i acc kv = getitem_step V j acc kv).
  { unfold getitem_step. now rewrite (H kv (or_introl eq_refl)). }
  rewrite E. apply IH. intros kv' Hkv'. apply H. now right.
Qed.

(** X11: negative indices count from the end: when every attribute the
    constructor takes is an array of length [N] or an object Python cannot
    subscript, and [-N <= i < 0], [D[i]] is [D[i + N]], so [D[-1]] is the
    last time sample. *)
Theorem getitem_negative_index self (N : nat) index :
  wf_variant V = true ->
  complete_instance V self = true ->
  plain_or_array V self = true ->
  arrays_of_length V self N = true ->
  (- Z.of_nat N <= index < 0)%Z ->
  exists new,
    __getitem__ MassProperties_new V self index = Ok new
    /\ __getitem__ MassProperties_new V self (index + Z.of_nat N) = Ok new.
Proof.
  intros Hwf Hc Hplain Harr Hidx.
  assert (Hpos : __getitem__ MassProperties_new V self (index + Z.of_nat N)
                 = Ok (map (fun kv => (fst kv,
                                       item_or_self (index + Z.of_nat N) (snd kv)))
                         (reinstantiated V self))).
  { apply getitem_ok; try assumption. intros k xs Hk Hxs.
    assert (length xs = N) as -> by (eapply arrays_of_length_inv; eauto).
    lia. }
  eexists. split; [|exact Hpos].
  etransitivity; [|exact Hpos]. rewrite !getitem_unfold.
  rewrite get_new_instance_plain by assumption. cbn [bind]. unfold dict_items.
  apply getitem_fold_ext. intros kv Hkv.
  apply reinstantiated_In in Hkv as [[Hk Hv] | [_ Hv]]; rewrite Hv; [|reflexivity].
  destruct (dict_get self (fst kv)) as [v|] eqn:E; [|reflexivity].
  assert (Hkind : (is_array v || not_subscriptable v)%bool = true)
    by (eapply plain_or_array_inv; eassumption).
  destruct v as [| x | xs | m | y | s]; try reflexivity; try discriminate.
  assert (length xs = N) as <- by (eapply arrays_of_length_inv; eauto).
  now apply get_item_negative.
Qed.

(** An instance that holds a NumPy scalar cannot be indexed. *)
Lemma getitem_numpy_scalar_err self index :
  wf_variant V = true -> complete_instance V self = true ->
  holds_numpy_scalar V self = true ->
  __getitem__ MassProperties_new V self index = Err getitem_error.
Proof.
  intros Hwf Hc Hnp.
  destruct (wf_variant_inv V Hwf) as [Hnd _].
  unfold holds_numpy_scalar in Hnp. apply existsb_exists in Hnp as [k [Hk Hget]].
  destruct (dict_get self k) as [[| | | | y |]|] eqn:E; try discriminate.
  rewrite getitem_unfold. rewrite get_new_instance_plain by assumption.
  cbn [bind]. unfold dict_items.
  apply getitem_fold_raise with (kv := (k, VNpNum y)) (e := getitem_error).
  - intros kv Hkv. eapply reinstantiated_assignable; eauto.
  - apply dict_get_In. rewrite reinstantiated_get_arg by assumption.
    now rewrite E.
  - reflexivity.
Qed.

(** An item of an instance is a complete instance. *)
Lemma indexed_complete self index :
  wf_variant V = true -> complete_instance V self = true ->
  complete_instance V (map (fun kv => (fst kv, item_or_self index (snd kv)))
                         (reinstantiated V self)) = true.
Proof.
  intros Hwf Hc.
  pose proof (reinstantiated_complete V _ Hwf Hc) as HcR.
  destruct (complete_instance_inv V _ HcR) as [HallR [mp [Hmp Hnn]]].
  unfold complete_instance. apply andb_true_iff. split.
  - apply forallb_forall. intros k Hk. rewrite dict_get_map_values.
    destruct (HallR k Hk) as [v Hv]. now rewrite Hv.
  - rewrite dict_get_map_values, Hmp. simpl. now destruct mp.
Qed.

(** X12: a NumPy scalar cannot be indexed, so an instance that holds one
    among the attributes its constructor takes raises the [IndexError] of
    line 206 at every index.  An item of a trajectory is such an instance:
    when some attribute of [D] is an array, [D[i]] holds the NumPy scalar
    taken from it and [D[i][j]] raises, whatever [j]. *)
Theorem getitem_numpy_scalar_raises self :
  wf_variant V = true ->
  complete_instance V self = true ->
  (holds_numpy_scalar V self = true ->
   forall index,
     __getitem__ MassProperties_new V self index = Err getitem_error
     /\ raises IndexError (__getitem__ MassProperties_new V self index))
  /\ (forall (N : nat) k (xs : list num) (i : Z),
        plain_or_array V self = true ->
        arrays_of_length V self N = true ->
        In k (init_args V) -> dict_get self k = Some (VArr xs) ->
        (0 <= i < Z.of_nat N)%Z ->
        exists new,
          __getitem__ MassProperties_new V self i = Ok new
          /\ getattr new k = Ok (VNpNum (nth (Z.to_nat i) xs num_zero))
          /\ forall j, __getitem__ MassProperties_new V new j = Err getitem_error).
Proof.
  intros Hwf Hc.
  destruct (wf_variant_inv V Hwf) as [Hnd _].
  split.
  - intros Hnp index.
    pose proof (getitem_numpy_scalar_err self index Hwf Hc Hnp) as E.
    split; [exact E | rewrite E; reflexivity].
  - intros N k xs i Hplain Harr Hk Hget Hi.
    set (new := map (fun kv => (fst kv, item_or_self i (snd kv)))
                  (reinstantiated V self)).
    assert (Hnew : dict_get new k = Some (VNpNum (nth (Z.to_nat i) xs num_zero))).
    { unfold new. rewrite dict_get_map_values.
      rewrite reinstantiated_get_arg by assumption. now rewrite Hget. }
    exists new. split; [|split].
    + apply getitem_ok; try assumption. intros k' xs' Hk' Hxs'.
      assert (length xs' = N) as -> by (eapply arrays_of_length_inv; eauto).
      exact Hi.
    + now apply getattr_get.
    + intros j. apply getitem_numpy_scalar_err; [assumption | |].
      * now apply indexed_complete.
      * unfold holds_numpy_scalar. apply existsb_exists. exists k.
        split; [exact Hk|]. now rewrite Hnew.
Qed.

End NewInstanceMore.

(* ================================================================== *)
(** * More on the trajectory constraint binder *)

Section BinderMore.
Context {num : Type} {Sc : Scalar num}.
Variable V : Variant num.
Implicit Types (self : @instance num) (time : value num)
  (method name : string) (sd st : dict (value num)).

Local Notation "'attr' self k" :=
  (match dict_get self k with Some v => v | None => VNone end)
  (at level 10, self at level 9, k at level 9, only parsing).

Lemma constrain_handler_ValueError name (e : exn) :
  exn_cls (constrain_handler name e) = ValueError.
Proof.
  unfold constrain_handler. now destruct (exn_cls e).
Qed.

Lemma none_in_some sd name d :
  dict_get sd name = Some d -> none_in sd name = is_None d.
Proof.
  unfold none_in. intros ->. now destruct d.
Qed.

Section AnyOpti.
Context {Opti : Type}.
Variable constrain_derivative :
  Opti -> value num -> value num -> value num -> string -> result Opti.
Implicit Types (opti : Opti).

Lemma constrain_loop_errors self sd time method (which : list string) :
  (forall n, In n which -> In n (dict_keys sd)) ->
  forall opti e,
    constrain_loop V constrain_derivative self sd time method opti which = Err e ->
    exn_cls e = ValueError.
Proof.
  induction which as [|n which IH]; intros Hkeys opti e H; [discriminate|].
  cbn [constrain_loop] in H.
  destruct (proj1 (dict_get_some_In sd n) (Hkeys n (or_introl eq_refl))) as [d Hd].
  unfold dict_getitem at 1 in H. rewrite Hd in H. cbn [bind] in H.
  assert (Hrest : forall n', In n' which -> In n' (dict_keys sd))
    by (intros n' Hn'; apply Hkeys; now right).
  destruct (is_None d).
  - exact (IH Hrest _ _ H).
  - destruct (bind (state V self) _) as [opti'|e0].
    + exact (IH Hrest _ _ H).
    + injection H as <-. apply constrain_handler_ValueError.
Qed.

(** X13: once the derivatives can be read and name every selected
    variable, [constrain_derivatives] raises nothing but [ValueError]:
    whatever goes wrong inside the [try], a missing state or a failure of
    the optimization context of any class, leaves it as a [ValueError]. *)
Theorem constrain_derivatives_raises_ValueError_only self opti time method sd
  (names : list string) (e : exn) :
  state_derivatives V self = Ok sd ->
  (forall n, In n names -> In n (dict_keys sd)) ->
  constrain_derivatives V constrain_derivative self opti time method
    (WNames names) = Err e ->
  exn_cls e = ValueError.
Proof.
  intros Hsd Hkeys H. unfold constrain_derivatives in H. cbn [bind] in H.
  rewrite Hsd in H. cbn [bind] in H.
  exact (constrain_loop_errors _ _ _ _ _ Hkeys _ H).
Qed.

Lemma constrain_loop_skip_prefix self sd time method opti (pre which : list string) :
  (forall n, In n pre -> dict_get sd n = Some VNone) ->
  constrain_loop V constrain_derivative self sd time method opti (pre ++ which)
  = constrain_loop V constrain_derivative self sd time method opti which.
Proof.
  induction pre as [|n pre IH]; intros H; [reflexivity|].
  cbn [app constrain_loop]. unfold dict_getitem at 1.
  rewrite (H n (or_introl eq_refl)). cbn [bind is_None].
  apply IH. intros n' Hn'. apply H. now right.
Qed.

(** X14: the first selected variable on which the optimization context
    raises ends the call, with a [ValueError] whose message names that
    variable; when the context raises a [KeyError], the message says that
    the instance has no state of that name, although it has. *)
Theorem constrain_failure_names_variable self opti time method st sd
  (pre rest : list string) name (d v : value num) (e : exn) :
  state V self = Ok st ->
  state_derivatives V self = Ok sd ->
  (forall n, In n pre -> dict_get sd n = Some VNone) ->
  dict_get sd name = Some d -> is_None d = false ->
  dict_get st name = Some v ->
  constrain_derivative opti d v time method = Err e ->
  constrain_derivatives V constrain_derivative self opti time method
    (WNames (pre ++ name :: rest))
  = Err (Raise ValueError
           (match exn_cls e with
            | KeyError =>
                "This dynamics instance does not have a state named '"
                  ++ name ++ "'!"
            | _ =>
                "Error while constraining state variable '" ++ name
                  ++ "': " ++ LF ++ exn_msg e
            end)).
Proof.
  intros Hst Hsd Hpre Hd Hnn Hv He.
  unfold constrain_derivatives. cbn [bind]. rewrite Hsd. cbn [bind].
  rewrite constrain_loop_skip_prefix by assumption.
  cbn [constrain_loop]. unfold dict_getitem at 1. rewrite Hd. cbn [bind].
  rewrite Hnn, Hst. cbn [bind]. unfold dict_getitem at 1. rewrite Hv.
  cbn [bind]. rewrite He. unfold constrain_handler.
  now destruct (exn_cls e).
Qed.

End AnyOpti.

(** X15: on an optimization context that records its calls,
    [constrain_derivatives] makes exactly one call per selected variable
    whose derivative is not [None], in the order of the selection, each
    with the derivative and the state value of that variable, the time
    grid and the method; with [which="all"] the selection is the keys of
    the state. *)
Theorem constrain_records_selected self
  (opti : list (value num * value num * value num * string)) time method st sd
  (names : list string) :
  state V self = Ok st ->
  state_derivatives V self = Ok sd ->
  (forall n, In n names -> In n (dict_keys sd)) ->
  (forall n, In n names -> In n (dict_keys st)) ->
  constrain_derivatives V record_constraint self opti time method (WNames names)
  = Ok (opti ++ map (fun n => (attr sd n, attr st n, time, method))
                  (filter (fun n => negb (none_in sd n)) names))
  /\ (names = dict_keys st ->
      constrain_derivatives V record_constraint self opti time method WAll
      = Ok (opti ++ map (fun n => (attr sd n, attr st n, time, method))
                      (filter (fun n => negb (none_in sd n)) names))).
Proof.
  intros Hst Hsd Hksd Hkst.
  assert (E : constrain_derivatives V record_constraint self opti time method
                (WNames names)
              = Ok (opti ++ map (fun n => (attr sd n, attr st n, time, method))
                              (filter (fun n => negb (none_in sd n)) names))).
  { unfold constrain_derivatives. cbn [bind]. rewrite Hsd. cbn [bind].
    revert opti. induction names as [|n names IH]; intros opti.
    - cbn [filter map constrain_loop]. now rewrite app_nil_r.
    - assert (Hsd' : forall n', In n' names -> In n' (dict_keys sd))
        by (intros n' Hn'; apply Hksd; now right).
      assert (Hst' : forall n', In n' names -> In n' (dict_keys st))
        by (intros n' Hn'; apply Hkst; now right).
      destruct (proj1 (dict_get_some_In sd n) (Hksd n (or_introl eq_refl)))
        as [d Hd].
      destruct (proj1 (dict_get_some_In st n) (Hkst n (or_introl eq_refl)))
        as [v Hv].
      cbn [constrain_loop filter]. unfold dict_getitem at 1. rewrite Hd.
      cbn [bind]. rewrite (none_in_some _ _ Hd).
      destruct (is_None d) eqn:Hnn; cbn [negb].
      + now apply IH.
      + rewrite Hst. cbn [bind]. unfold dict_getitem at 1. rewrite Hv.
        cbn [bind]. unfold record_constraint at 1.
        rewrite IH by assumption. cbn [map]. rewrite Hd, Hv.
        now rewrite <- app_assoc. }
  split; [exact E|].
  intros Hall. rewrite <- E. unfold constrain_derivatives.
  rewrite Hst. cbn [bind]. now rewrite Hall.
Qed.

End BinderMore.

(* ================================================================== *)
(** * More on the derived accessors *)

Section AccessorsMore.
Context {num : Type} {Sc : Scalar num}.
Implicit Types (self : @instance num).

(** X16: on a trajectory the accessors work sample by sample: with a
    scalar mass and a vectorized [z_e], [altitude] and [potential_energy]
    are arrays with one entry per time sample, [-z] and
    [mass * 9.81 * (-z)]. *)
Theorem potential_energy_vectorized self (zs : list num) (mass : num) :
  getattr self "z_e" = Ok (VArr zs) ->
  getattr self "mass_props" = Ok (VMassProps (VNum mass)) ->
  altitude self = Ok (VArr (map num_neg zs))
  /\ potential_energy self
     = Ok (VArr (map (fun z => num_mul (num_mul mass num_g) (num_neg z)) zs))
  /\ (forall h e, altitude self = Ok h -> potential_energy self = Ok e ->
                  np_length h = length zs /\ np_length e = length zs).
Proof.
  intros Hz Hmp.
  assert (Ha : altitude self = Ok (VArr (map num_neg zs))).
  { unfold altitude. rewrite Hz. reflexivity. }
  assert (Hp : potential_energy self
               = Ok (VArr (map (fun z => num_mul (num_mul mass num_g) (num_neg z)) zs))).
  { unfold potential_energy. rewrite Hmp, Ha. cbn. now rewrite map_map. }
  split; [exact Ha | split; [exact Hp|]].
  intros h e Hh He. rewrite Ha in Hh. rewrite Hp in He.
  injection Hh as <-. injection He as <-. cbn [np_length].
  now rewrite !length_map.
Qed.

End AccessorsMore.

(* ================================================================== *)
(** * The further theorems at work on the point mass *)

Lemma unpack_pack_state_roundtrip_witness :
  (d <- pack_state PointMass2D steady (Some [VNum 1; VNum 2; VNum 3; VNum 4]%float) ;;
   unpack_state PointMass2D steady (Some d))
  = Ok [VNum 1; VNum 2; VNum 3; VNum 4]%float.
Proof.
  apply (unpack_pack_state_roundtrip PointMass2D steady
           [VNum 1; VNum 2; VNum 3; VNum 4]%float eq_refl).
  reflexivity.
Defined.

Lemma missing_state_attribute_raises_witness :
  raises AttributeError (__len__ PointMass2D broken).
Proof.
  apply (missing_state_attribute_raises PointMass2D broken "w_e").
  - simpl. auto.
  - reflexivity.
Defined.

Lemma set_state_dict_frame_witness :
  exists new,
    _set_state PointMass2D steady
      (Some (SDict [("x_e", VNum 7); ("note", VNum 1)]%float)) = Ok new
    /\ getattr new "x_e" = Ok (VNum 7%float)
    /\ getattr new "note" = Ok (VNum 1%float).
Proof.
  destruct (set_state_dict_frame PointMass2D steady
              [("x_e", VNum 7); ("note", VNum 1)]%float eq_refl)
    as [[new [H1 [H2 _]]] _].
  exists new. split; [exact H1 | split; apply H2; reflexivity].
Defined.


(** With as many keys as there are state variables, the keys of the dict
    end up as the values of the state. *)
Example set_state_keys_as_values :
  exists new,
    _set_state PointMass2D steady
      (Some (SDict [("x_e", VNum 1); ("altitude", VNum 5);
                    ("u_e", VNum 2); ("w_e", VNum 3)]%float)) = Ok new
    /\ state PointMass2D new
       = Ok [("x_e", VStr "x_e"); ("z_e", VStr "altitude");
             ("u_e", VStr "u_e"); ("w_e", VStr "w_e")].
Proof.
  eexists. split; reflexivity.
Qed.

Lemma set_state_keeps_controls_witness :
  exists new,
    _set_state PointMass2D pushed (Some (SDict [("x_e", VNum 7%float)])) = Ok new
    /\ getattr new "Fx_e" = Ok (VNum 3%float)
    /\ dict_keys new = dict_keys pushed.
Proof.
  destruct (set_state_keeps_controls PointMass2D pushed
              (Some (SDict [("x_e", VNum 7%float)])) eq_refl eq_refl eq_refl)
    as [new [Hnew [Hctl [_ Hkeys]]]].
  exists new. repeat split; [exact Hnew | | exact Hkeys].
  apply (Hctl "Fx_e"). simpl. auto.
Defined.

Lemma new_instance_plain_idempotent_witness :
  exists new,
    get_new_instance_with_state unit_mass PointMass2D pushed None = Ok new
    /\ state PointMass2D new = state PointMass2D pushed
    /\ get_new_instance_with_state unit_mass PointMass2D new None = Ok new.
Proof.
  destruct (new_instance_plain_idempotent unit_mass PointMass2D pushed
              eq_refl eq_refl) as [new [H1 [H2 [_ [_ H3]]]]].
  exists new. repeat split; assumption.
Defined.

Lemma new_instance_attribute_names_witness :
  exists new,
    get_new_instance_with_state unit_mass PointMass2D pushed
      (Some (SDict [("x_e", VNum 7%float)])) = Ok new
    /\ dict_keys new
       = ["mass_props"; "x_e"; "z_e"; "u_e"; "w_e"; "alpha"; "Fx_e"; "Fz_e"].
Proof.
  destruct (new_instance_attribute_names unit_mass PointMass2D pushed
              (Some (SDict [("x_e", VNum 7%float)])) eq_refl eq_refl eq_refl)
    as [new [H1 [H2 _]]].
  exists new. split; [exact H1 | exact H2].
Defined.


Lemma new_instance_wrong_length_witness :
  get_new_instance_with_state unit_mass PointMass2D steady
    (Some (SSeq [VNum 1%float])) = Err pack_state_error.
Proof.
  apply (new_instance_wrong_length unit_mass PointMass2D steady [VNum 1%float]
           eq_refl eq_refl).
  simpl. lia.
Defined.

Lemma new_instance_missing_attribute_witness :
  raises AttributeError (__getitem__ unit_mass PointMass2D broken 0).
Proof.
  apply (new_instance_missing_attribute unit_mass (V := PointMass2D) broken
           (k := "w_e") None 0).
  - unfold init_args. simpl. auto 10.
  - reflexivity.
Defined.

Lemma getitem_negative_index_witness :
  exists new,
    __getitem__ unit_mass PointMass2D trajectory (-1) = Ok new
    /\ __getitem__ unit_mass PointMass2D trajectory 2 = Ok new.
Proof.
  apply (getitem_negative_index unit_mass PointMass2D trajectory 3
           (index := (-1)%Z) eq_refl eq_refl eq_refl eq_refl).
  simpl. lia.
Defined.

Lemma getitem_numpy_scalar_raises_witness :
  exists new,
    __getitem__ unit_mass PointMass2D trajectory 1 = Ok new
    /\ __getitem__ unit_mass PointMass2D new 0 = Err getitem_error.
Proof.
  destruct (getitem_numpy_scalar_raises unit_mass PointMass2D trajectory
              eq_refl eq_refl) as [_ H].
  destruct (H 3 "x_e" [0; 10; 20]%float 1%Z eq_refl eq_refl)
    as [new [H1 [_ H3]]].
  - unfold init_args. simpl. auto 10.
  - reflexivity.
  - simpl. lia.
  - exists new. split; [exact H1 | apply H3].
Defined.

Lemma constrain_derivatives_raises_ValueError_only_witness :
  exn_cls (Raise ValueError
             ("Error while constraining state variable 'x_e': " ++ LF ++ "infeasible"))
  = ValueError.
Proof.
  eapply (constrain_derivatives_raises_ValueError_only PointMass2D
            (reject_constraint (Raise OtherException "infeasible"))
            steady tt (VArr [0; 1]%float) "midpoint" ["x_e"; "u_e"]).
  - reflexivity.
  - intros n [<-|[<-|[]]]; simpl; auto.
  - reflexivity.
Defined.

Lemma constrain_failure_names_variable_witness :
  constrain_derivatives PointMass2D_glide
    (reject_constraint (Raise KeyError "t")) steady tt (VArr [0; 1]%float)
    "midpoint" (WNames ["w_e"; "x_e"; "u_e"])
  = Err (Raise ValueError "This dynamics instance does not have a state named 'x_e'!").
Proof.
  eapply (constrain_failure_names_variable PointMass2D_glide
            (reject_constraint (Raise KeyError "t")) steady tt
            (VArr [0; 1]%float) "midpoint" ["w_e"] ["u_e"] "x_e"
            (d := VNum 50%float) (v := VNum 0%float) (e := Raise KeyError "t")).
  - reflexivity.
  - reflexivity.
  - intros n [<-|[]]. reflexivity.
  - reflexivity.
  - reflexivity.
  - reflexivity.
  - reflexivity.
Defined.

Lemma constrain_records_selected_witness :
  constrain_derivatives PointMass2D_glide record_constraint steady []
    (VArr [0; 1]%float) "midpoint" (WNames ["w_e"; "u_e"; "x_e"])
  = Ok [(VNum 0, VNum 50, VArr [0; 1], "midpoint");
        (VNum 50, VNum 0, VArr [0; 1], "midpoint")]%float.
Proof.
  refine (proj1 (constrain_records_selected PointMass2D_glide steady []
                   (VArr [0; 1]%float) "midpoint" ["w_e"; "u_e"; "x_e"]
                   eq_refl eq_refl _ _)).
  - intros n [<-|[<-|[<-|[]]]]; simpl; auto.
  - intros n [<-|[<-|[<-|[]]]]; simpl; auto.
Defined.

Lemma potential_energy_vectorized_witness :
  altitude climb = Ok (VArr [100; 110; 120]%float).
Proof.
  exact (proj1 (potential_energy_vectorized climb
                  (zs := [-100; -110; -120]%float) (mass := 2%float)
                  eq_refl eq_refl)).
Defined.
